(** * Crypto dashboard: the two-slot snapshot window and its signal engine

    A shallow embedding of [CryptoAnalyzer] (src/app.py): the persisted
    window ([load_node_data], [save_node_data]), the telemetry fetch
    ([fetch_node_data]), the rotation ([update_node_data]) and the two
    classifiers ([calculate_high_confidence_signal],
    [calculate_network_signal]).

    Conventions of the embedding:
    - Python [int] is [Z]; Python [float] is an exact rational [Q], so the
      literals 2.5, 0.7, 0.9, 0.6 and 0.95 are the rationals they denote and
      [/] and [*] do not round;
    - a Python exception is the [Raise] result of the [py] type, and
      [try]/[except] is the combinator [try_except];
    - the analyzer's attributes, the data file, the messages shown with
      [st.error] and the count of HTTP requests form the explicit [state]
      threaded by the monad [M];
    - what the outside world decides (the clock, the HTTP response, whether
      the disk can be read or written) is the [env] record. *)

From Stdlib Require Import ZArith QArith Qabs String List Bool Lia Lqa.
From Stdlib Require Import Ascii Permutation.
From stdpp Require Import gmap strings.
Import ListNotations.

Local Open Scope string_scope.
Local Open Scope Z_scope.

(** ** Python values and exceptions *)

(** The exceptions the modelled code can meet; all of them are subclasses of
    [Exception]. *)
Inductive exn : Type :=
  | ZeroDivisionError
  | TypeError
  | AttributeError
  | JSONDecodeError
  | OSError
  | RequestException.

(** The result of evaluating a Python expression or statement. *)
Inductive py (A : Type) : Type :=
  | Ok (a : A)
  | Raise (e : exn).
Arguments Ok {A} a.
Arguments Raise {A} e.

Definition py_bind {A B : Type} (x : py A) (f : A -> py B) : py B :=
  match x with
  | Ok a => f a
  | Raise e => Raise e
  end.

Declare Scope py_scope.
Notation "x <- e1 ;; e2" := (py_bind e1 (fun x => e2))
  (at level 100, e1 at next level, right associativity) : py_scope.
Delimit Scope py_scope with py.

(** [a / b] on two ints: true division, [ZeroDivisionError] on a zero
    divisor. *)
Definition py_truediv (a b : Z) : py Q :=
  if b =? 0 then Raise ZeroDivisionError
  else Ok (inject_Z a / inject_Z b)%Q.

(** [x > y], [x < y] and [x <= y] on floats. *)
Definition Qgtb (x y : Q) : bool := negb (Qle_bool x y).
Definition Qltb (x y : Q) : bool := negb (Qle_bool y x).

(** [needle in hay] on strings. *)
Fixpoint contains (needle hay : string) : bool :=
  String.prefix needle hay ||
  match hay with
  | EmptyString => false
  | String _ rest => contains needle rest
  end.

(** [s.startswith((p1, p2))] *)
Definition startswith2 (s p1 p2 : string) : bool :=
  String.prefix p1 s || String.prefix p2 s.

(** ** Data model *)

(** One telemetry reading, the dict built by [fetch_node_data]. *)
Record snapshot : Type := {
  timestamp : string;
  total_nodes : Z;
  active_nodes : Z;
  tor_nodes : Z;
  tor_percentage : Q;
  active_ratio : Q
}.

(** What an attribute of the analyzer, or a value of the persisted JSON
    object, can hold: [None], a string (the [last_updated] stamp) or a
    snapshot dict. *)
Inductive pyval : Type :=
  | PNone
  | PStr (s : string)
  | PSnapshot (d : snapshot).

(** A slot of the window as the specification sees it. *)
Definition slot (o : option snapshot) : pyval :=
  match o with
  | Some d => PSnapshot d
  | None => PNone
  end.

(** Python truthiness, as used by [if not self.current_data]. *)
Definition truthy (v : pyval) : bool :=
  match v with
  | PNone => false
  | PStr s => negb (String.eqb s "")
  | PSnapshot _ => true
  end.

(** [v['key']] for a key of the snapshot dict; subscripting [None] or a
    string with a string key raises [TypeError]. *)
Definition getitem {A : Type} (v : pyval) (key : snapshot -> A) : py A :=
  match v with
  | PSnapshot d => Ok (key d)
  | _ => Raise TypeError
  end.

(** The analyzer object: its two attributes. *)
Record analyzer : Type := {
  current_data : pyval;
  previous_data : pyval
}.

(** The text of [reasoning]: each f-string of the source is kept as its
    template together with the values it formats. *)
Inductive reasoning_text : Type :=
  | NeedTwoDataPoints
  | LargeIncrease (tor_change : Z) (percentage_change : Q)
  | LargeDecrease (tor_change : Z) (percentage_change : Q)
  | ModerateIncrease (tor_change : Z) (percentage_change : Q)
  | ModerateDecrease (tor_change : Z) (percentage_change : Q)
  | SmallIncrease (tor_change : Z)
  | SmallDecrease (tor_change : Z)
  | MinimalChange (tor_change : Z).

(** The dict returned by [calculate_high_confidence_signal]; the three keys
    that only the populated branch sets are optional. *)
Module TorSignal.
Record t : Type := {
  current_tor : Z;
  previous_tor : Z;
  tor_change : Z;
  percentage_change : Q;
  signal : string;
  confidence : string;
  bias : string;
  reasoning : reasoning_text;
  confidence_factors : option (list string);
  total_nodes : option Z;
  active_ratio : option Q
}.
End TorSignal.

(** The dict returned by [calculate_network_signal]. *)
Module NetSignal.
Record t : Type := {
  current_total : Z;
  previous_total : Z;
  total_change : Z;
  network_signal : string
}.
End NetSignal.

(** ** The classifiers *)

Section Classifier.
Local Open Scope py_scope.

(** Factor 1: absolute Tor change magnitude. *)
Definition tor_change_factor (tor_change : Z) : string :=
  if Z.abs tor_change >? 50 then "LARGE_TOR_CHANGE"
  else if Z.abs tor_change >? 25 then "MEDIUM_TOR_CHANGE"
  else "SMALL_TOR_CHANGE".

(** Factor 2: percentage change magnitude. *)
Definition percentage_factor (percentage_change : Q) : string :=
  if Qgtb (Qabs percentage_change) 5 then "LARGE_PERCENTAGE_CHANGE"
  else if Qgtb (Qabs percentage_change) 2.5 then "MEDIUM_PERCENTAGE_CHANGE"
  else "SMALL_PERCENTAGE_CHANGE".

(** Factor 3: network size stability. *)
Definition network_factor (current_total : Z) : string :=
  if current_total >? 10000 then "LARGE_NETWORK"
  else if current_total >? 8000 then "MEDIUM_NETWORK"
  else "SMALL_NETWORK".

(** Factor 4: active ratio health. *)
Definition ratio_factor (ratio : Q) : string :=
  if Qle_bool 0.7 ratio && Qle_bool ratio 0.9 then "HEALTHY_ACTIVE_RATIO"
  else if Qle_bool 0.6 ratio && Qle_bool ratio 0.95 then "MODERATE_ACTIVE_RATIO"
  else "POOR_ACTIVE_RATIO".

Definition high_confidence_count (factors : list string) : nat :=
  length (List.filter (fun factor => startswith2 factor "LARGE" "HEALTHY") factors).

Definition medium_confidence_count (factors : list string) : nat :=
  length (List.filter (fun factor => startswith2 factor "MEDIUM" "MODERATE") factors).

Definition overall_confidence (factors : list string) : string :=
  if (3 <=? high_confidence_count factors)%nat then "HIGH"
  else if (3 <=? high_confidence_count factors + medium_confidence_count factors)%nat
       then "MEDIUM"
  else "LOW".

(** [confidence in ["MEDIUM", "HIGH"]] *)
Definition medium_or_high (confidence : string) : bool :=
  String.eqb confidence "MEDIUM" || String.eqb confidence "HIGH".

(** The [if]/[elif] chain of the source: signal, bias and reasoning. *)
Definition decide_signal (tor_change : Z) (percentage_change : Q) (confidence : string)
  : string * string * reasoning_text :=
  if (tor_change >? 50) && Qgtb percentage_change 5 && String.eqb confidence "HIGH" then
    ("STRONG SELL", "HIGHLY BEARISH", LargeIncrease tor_change percentage_change)
  else if (tor_change <? -50) && Qltb percentage_change (-5) && String.eqb confidence "HIGH" then
    ("STRONG BUY", "HIGHLY BULLISH", LargeDecrease tor_change percentage_change)
  else if (tor_change >? 25) && Qgtb percentage_change 2.5 && medium_or_high confidence then
    ("SELL", "BEARISH", ModerateIncrease tor_change percentage_change)
  else if (tor_change <? -25) && Qltb percentage_change (-2.5) && medium_or_high confidence then
    ("BUY", "BULLISH", ModerateDecrease tor_change percentage_change)
  else if tor_change >? 10 then
    ("SLIGHT SELL", "SLIGHTLY BEARISH", SmallIncrease tor_change)
  else if tor_change <? -10 then
    ("SLIGHT BUY", "SLIGHTLY BULLISH", SmallDecrease tor_change)
  else
    ("HOLD", "NEUTRAL", MinimalChange tor_change).

(** [(tor_change / previous_tor) * 100 if previous_tor > 0 else 0] *)
Definition percentage_of (tor_change previous_tor : Z) : py Q :=
  if previous_tor >? 0 then
    q <- py_truediv tor_change previous_tor ;;
    Ok (q * 100)%Q
  else Ok 0%Q.

Definition calculate_high_confidence_signal (self : analyzer) : py TorSignal.t :=
  if negb (truthy (current_data self)) || negb (truthy (previous_data self)) then
    current_tor <- (if truthy (current_data self)
                    then getitem (current_data self) tor_nodes else Ok 0) ;;
    previous_tor <- (if truthy (previous_data self)
                     then getitem (previous_data self) tor_nodes else Ok 0) ;;
    Ok {| TorSignal.current_tor := current_tor;
          TorSignal.previous_tor := previous_tor;
          TorSignal.tor_change := 0;
          TorSignal.percentage_change := 0;
          TorSignal.signal := "INSUFFICIENT_DATA";
          TorSignal.confidence := "LOW";
          TorSignal.bias := "NEED MORE DATA";
          TorSignal.reasoning := NeedTwoDataPoints;
          TorSignal.confidence_factors := None;
          TorSignal.total_nodes := None;
          TorSignal.active_ratio := None |}
  else
    current_tor <- getitem (current_data self) tor_nodes ;;
    previous_tor <- getitem (previous_data self) tor_nodes ;;
    current_total <- getitem (current_data self) total_nodes ;;
    ratio <- getitem (current_data self) active_ratio ;;
    let tor_change := current_tor - previous_tor in
    percentage_change <- percentage_of tor_change previous_tor ;;
    let confidence_factors :=
      [ tor_change_factor tor_change;
        percentage_factor percentage_change;
        network_factor current_total;
        ratio_factor ratio ] in
    let confidence := overall_confidence confidence_factors in
    let '(signal, bias, reasoning) :=
      decide_signal tor_change percentage_change confidence in
    Ok {| TorSignal.current_tor := current_tor;
          TorSignal.previous_tor := previous_tor;
          TorSignal.tor_change := tor_change;
          TorSignal.percentage_change := percentage_change;
          TorSignal.signal := signal;
          TorSignal.confidence := confidence;
          TorSignal.bias := bias;
          TorSignal.reasoning := reasoning;
          TorSignal.confidence_factors := Some confidence_factors;
          TorSignal.total_nodes := Some current_total;
          TorSignal.active_ratio := Some ratio |}.

Definition classify_network (total_change : Z) : string :=
  if total_change >? 100 then "NETWORK STRONG GROWTH"
  else if total_change >? 50 then "NETWORK GROWING"
  else if total_change >? 0 then "NETWORK STABLE"
  else "NETWORK SHRINKING".

Definition calculate_network_signal (self : analyzer) : py NetSignal.t :=
  if negb (truthy (current_data self)) || negb (truthy (previous_data self)) then
    current_total <- (if truthy (current_data self)
                      then getitem (current_data self) total_nodes else Ok 0) ;;
    previous_total <- (if truthy (previous_data self)
                       then getitem (previous_data self) total_nodes else Ok 0) ;;
    Ok {| NetSignal.current_total := current_total;
          NetSignal.previous_total := previous_total;
          NetSignal.total_change := 0;
          NetSignal.network_signal := "INSUFFICIENT_DATA" |}
  else
    current_total <- getitem (current_data self) total_nodes ;;
    previous_total <- getitem (previous_data self) total_nodes ;;
    let total_change := current_total - previous_total in
    Ok {| NetSignal.current_total := current_total;
          NetSignal.previous_total := previous_total;
          NetSignal.total_change := total_change;
          NetSignal.network_signal := classify_network total_change |}.
End Classifier.

(** The window of the specification, [{current, previous}], as an analyzer. *)
Definition window (current previous : option snapshot) : analyzer :=
  {| current_data := slot current; previous_data := slot previous |}.

(** ** The persisted file, at the level of JSON tokens *)

(** The text of the data file is kept as the sequence of chunks that
    [json.dump] writes; a snapshot dict is one chunk. *)
Inductive token : Type :=
  | TLBrace
  | TRBrace
  | TColon
  | TComma
  | TNull
  | TStr (s : string)
  | TSnapshot (d : snapshot).

(** What [json.load] returns: a dict, or a value that is not a dict. *)
Inductive json : Type :=
  | JObject (members : gmap string pyval)
  | JValue (v : pyval).

Definition token_of_value (v : pyval) : token :=
  match v with
  | PNone => TNull
  | PStr s => TStr s
  | PSnapshot d => TSnapshot d
  end.

Definition parse_value (t : token) : option pyval :=
  match t with
  | TNull => Some PNone
  | TStr s => Some (PStr s)
  | TSnapshot d => Some (PSnapshot d)
  | _ => None
  end.

(** The members of an object up to its closing brace; a repeated key keeps
    its last value, as in Python. *)
Fixpoint parse_members (toks : list token) (acc : gmap string pyval)
  : option (gmap string pyval) :=
  match toks with
  | TStr k :: TColon :: t :: rest =>
      match parse_value t with
      | None => None
      | Some v =>
          match rest with
          | [TRBrace] => Some (<[k := v]> acc)
          | TComma :: rest' => parse_members rest' (<[k := v]> acc)
          | _ => None
          end
      end
  | _ => None
  end.

(** [json.load]: [None] stands for [JSONDecodeError]. *)
Definition json_load (toks : list token) : option json :=
  match toks with
  | [TLBrace; TRBrace] => Some (JObject ∅)
  | TLBrace :: rest => JObject <$> parse_members rest ∅
  | [t] => JValue <$> parse_value t
  | _ => None
  end.

Fixpoint dump_members (members : list (string * pyval)) : list token :=
  match members with
  | [] => []
  | [(k, v)] => [TStr k; TColon; token_of_value v]
  | (k, v) :: rest => TStr k :: TColon :: token_of_value v :: TComma :: dump_members rest
  end.

(** The chunks [json.dump] writes for a dict, keys in insertion order. *)
Definition json_dump (members : list (string * pyval)) : list token :=
  TLBrace :: dump_members members ++ [TRBrace].

(** ** The world around the analyzer *)

Inductive file : Type :=
  | Missing
  | Present (content : list token).

(** A message shown with [st.error]. *)
Inductive report : Type :=
  | ErrorSaving (e : exn)
  | ErrorFetching (e : exn).

(** The value of one entry of the payload's [nodes] dict: [null], a list
    (its elements given by their Python [repr]) or a string. *)
Inductive node_info : Type :=
  | InfoNull
  | InfoList (fields : list string)
  | InfoText (s : string).

(** The JSON payload of the telemetry source. *)
Record payload : Type := {
  p_total_nodes : Z;
  p_nodes : list (string * node_info)
}.

Inductive http_outcome : Type :=
  | RequestFails (e : exn)  (* connection error, timeout, bad status, bad payload *)
  | Response (data : payload).

(** What happens when the data file is written: [open] raises, or the write
    raises after some chunks have reached the file, or it completes. *)
Inductive write_outcome : Type :=
  | OpenFails
  | WriteFailsAfter (chunks : nat)
  | WriteCompletes.

Record env : Type := {
  now : string;              (* datetime.now().isoformat() *)
  http : http_outcome;       (* requests.get(...) and response.json() *)
  read_fails : bool;         (* open(file, 'r') raises *)
  write : write_outcome
}.

Record state : Type := {
  self : analyzer;
  disk : file;
  reports : list report;
  requests : nat             (* HTTP requests issued so far *)
}.

(** Statements: a state transformer that may raise. *)
Definition M (A : Type) : Type := state -> py A * state.

Definition ret {A : Type} (a : A) : M A := fun s => (Ok a, s).
Definition raise {A : Type} (e : exn) : M A := fun s => (Raise e, s).
Definition bind {A B : Type} (m : M A) (f : A -> M B) : M B :=
  fun s => match m s with
           | (Ok a, s') => f a s'
           | (Raise e, s') => (Raise e, s')
           end.
Definition lift {A : Type} (x : py A) : M A := fun s => (x, s).
Definition get : M state := fun s => (Ok s, s).
Definition modify (f : state -> state) : M unit := fun s => (Ok tt, f s).

(** [try: body except ...: handler] *)
Definition try_except {A : Type} (body : M A) (handler : exn -> M A) : M A :=
  fun s => match body s with
           | (Ok a, s') => (Ok a, s')
           | (Raise e, s') => handler e s'
           end.

Declare Scope M_scope.
Delimit Scope M_scope with M.
Notation "x <- e1 ;; e2" := (bind e1 (fun x => e2))
  (at level 100, e1 at next level, right associativity) : M_scope.
Notation "e1 ;; e2" := (bind e1 (fun _ => e2))
  (at level 100, right associativity) : M_scope.

Definition set_current_data (v : pyval) : M unit :=
  modify (fun s => {| self := {| current_data := v; previous_data := previous_data (self s) |};
                      disk := disk s; reports := reports s; requests := requests s |}).
Definition set_previous_data (v : pyval) : M unit :=
  modify (fun s => {| self := {| current_data := current_data (self s); previous_data := v |};
                      disk := disk s; reports := reports s; requests := requests s |}).
Definition set_disk (f : file) : M unit :=
  modify (fun s => {| self := self s; disk := f; reports := reports s; requests := requests s |}).
Definition st_error (r : report) : M unit :=
  modify (fun s => {| self := self s; disk := disk s; reports := reports s ++ [r];
                      requests := requests s |}).
Definition count_request : M unit :=
  modify (fun s => {| self := self s; disk := disk s; reports := reports s;
                      requests := S (requests s) |}).

(** [data.get(key)] on what [json.load] returned. *)
Definition json_get (data : json) (key : string) : py pyval :=
  match data with
  | JObject members => Ok (default PNone (members !! key))
  | JValue _ => Raise AttributeError
  end.

Section Storage.
Variable e : env.
Local Open Scope M_scope.

(** [open(self.data_file, 'r')] followed by [json.load(f)]. *)
Definition read_json (content : list token) : M json :=
  if read_fails e then raise OSError
  else match json_load content with
       | Some data => ret data
       | None => raise JSONDecodeError
       end.

Definition load_node_data : M unit :=
  try_except
    (s <- get ;;
     match disk s with
     | Present content =>
         data <- read_json content ;;
         current <- lift (json_get data "current_data") ;;
         set_current_data current ;;
         previous <- lift (json_get data "previous_data") ;;
         set_previous_data previous
     | Missing =>
         set_current_data PNone ;;
         set_previous_data PNone
     end)
    (fun _ =>
       set_current_data PNone ;;
       set_previous_data PNone).

(** [open(self.data_file, 'w')] truncates the file, then [json.dump]
    writes the chunks one after the other. *)
Definition write_json (chunks : list token) : M unit :=
  match write e with
  | OpenFails => raise OSError
  | WriteFailsAfter n => set_disk (Present (firstn n chunks)) ;; raise OSError
  | WriteCompletes => set_disk (Present chunks)
  end.

Definition save_node_data : M unit :=
  try_except
    (s <- get ;;
     let data := [ ("current_data", current_data (self s));
                   ("previous_data", previous_data (self s));
                   ("last_updated", PStr (now e)) ] in
     write_json (json_dump data))
    (fun err => st_error (ErrorSaving err)).
End Storage.

(** ** Fetching and rotating *)

(** [str(node_info)] *)
Definition py_str (info : node_info) : string :=
  match info with
  | InfoNull => "None"
  | InfoList fields => "[" ++ String.concat ", " fields ++ "]"
  | InfoText s => s
  end.

(** [node_info and isinstance(node_info, list) and len(node_info) > 0] *)
Definition is_active (info : node_info) : bool :=
  match info with
  | InfoList (_ :: _) => true
  | _ => false
  end.

(** ['.onion' in str(node_address) or '.onion' in str(node_info)] *)
Definition is_tor (node_address : string) (info : node_info) : bool :=
  contains ".onion" node_address || contains ".onion" (py_str info).

(** The loop over [data['nodes'].items()]: (active_nodes, tor_nodes). *)
Definition count_nodes (items : list (string * node_info)) : Z * Z :=
  fold_left
    (fun counts item =>
       let '(active_nodes, tor_nodes) := counts in
       let '(node_address, info) := item in
       (if is_active info then active_nodes + 1 else active_nodes,
        if is_tor node_address info then tor_nodes + 1 else tor_nodes))
    items (0, 0).

Section Rotation.
Variable e : env.
Local Open Scope M_scope.

(** [requests.get], [raise_for_status] and [response.json()] *)
Definition http_get : M payload :=
  count_request ;;
  match http e with
  | RequestFails err => raise err
  | Response data => ret data
  end.

Definition fetch_node_data : M (option snapshot) :=
  try_except
    (data <- http_get ;;
     let total := p_total_nodes data in
     let '(active, tor) := count_nodes (p_nodes data) in
     percentage <- lift (if total >? 0
                         then py_bind (py_truediv tor total) (fun q => Ok (q * 100)%Q)
                         else Ok 0%Q) ;;
     ratio <- lift (if total >? 0 then py_truediv active total else Ok 0%Q) ;;
     ret (Some {| timestamp := now e;
                  total_nodes := total;
                  active_nodes := active;
                  tor_nodes := tor;
                  tor_percentage := percentage;
                  active_ratio := ratio |}))
    (fun err => st_error (ErrorFetching err) ;; ret None).

Definition update_node_data : M bool :=
  new_data <- fetch_node_data ;;
  match new_data with
  | None => ret false
  | Some d =>
      s <- get ;;
      set_previous_data (current_data (self s)) ;;
      set_current_data (PSnapshot d) ;;
      save_node_data e ;;
      ret true
  end.
End Rotation.

(** ** Derived forms used by the statements *)

(** The result of the populated branch, field by field. *)
Definition populated_result (c p : snapshot) (pc : Q) : TorSignal.t :=
  let tc := tor_nodes c - tor_nodes p in
  let factors := [ tor_change_factor tc; percentage_factor pc;
                   network_factor (total_nodes c); ratio_factor (active_ratio c) ] in
  let confidence := overall_confidence factors in
  let verdict := decide_signal tc pc confidence in
  {| TorSignal.current_tor := tor_nodes c;
     TorSignal.previous_tor := tor_nodes p;
     TorSignal.tor_change := tc;
     TorSignal.percentage_change := pc;
     TorSignal.signal := fst (fst verdict);
     TorSignal.confidence := confidence;
     TorSignal.bias := snd (fst verdict);
     TorSignal.reasoning := snd verdict;
     TorSignal.confidence_factors := Some factors;
     TorSignal.total_nodes := Some (total_nodes c);
     TorSignal.active_ratio := Some (active_ratio c) |}.

(** What [save_node_data] writes. *)
Definition document (e : env) (a : analyzer) : list token :=
  json_dump [ ("current_data", current_data a);
              ("previous_data", previous_data a);
              ("last_updated", PStr (now e)) ].


(** ** The specification side: decision table, tag sets, order of levels *)

Module Spec.
(** A rule of the table: when it applies, and the (signal, bias) it gives. *)
Record rule : Type := {
  applies : Z -> Q -> string -> Prop;
  verdict : string * string
}.

Definition decision_table : list rule :=
  [ {| applies := fun tc pc conf => 50 < tc /\ (5 < pc)%Q /\ conf = "HIGH";
       verdict := ("STRONG SELL", "HIGHLY BEARISH") |};
    {| applies := fun tc pc conf => tc < -50 /\ (pc < -5)%Q /\ conf = "HIGH";
       verdict := ("STRONG BUY", "HIGHLY BULLISH") |};
    {| applies := fun tc pc conf =>
         25 < tc /\ (2.5 < pc)%Q /\ (conf = "MEDIUM" \/ conf = "HIGH");
       verdict := ("SELL", "BEARISH") |};
    {| applies := fun tc pc conf =>
         tc < -25 /\ (pc < -2.5)%Q /\ (conf = "MEDIUM" \/ conf = "HIGH");
       verdict := ("BUY", "BULLISH") |};
    {| applies := fun tc _ _ => 10 < tc;
       verdict := ("SLIGHT SELL", "SLIGHTLY BEARISH") |};
    {| applies := fun tc _ _ => tc < -10;
       verdict := ("SLIGHT BUY", "SLIGHTLY BULLISH") |};
    {| applies := fun _ _ _ => True;
       verdict := ("HOLD", "NEUTRAL") |} ].

(** [v] is the verdict of the first rule of [table] that applies. *)
Definition first_match (table : list rule) (tc : Z) (pc : Q) (conf : string)
           (v : string * string) : Prop :=
  exists (i : nat) (r : rule),
    nth_error table i = Some r /\
    applies r tc pc conf /\
    verdict r = v /\
    forall (j : nat) (r' : rule),
      (j < i)%nat -> nth_error table j = Some r' -> ~ applies r' tc pc conf.

(** The tags that count as high, and those that count as medium. *)
Definition high_tags : list string :=
  [ "LARGE_TOR_CHANGE"; "LARGE_PERCENTAGE_CHANGE"; "LARGE_NETWORK";
    "HEALTHY_ACTIVE_RATIO" ].

Definition medium_tags : list string :=
  [ "MEDIUM_TOR_CHANGE"; "MEDIUM_PERCENTAGE_CHANGE"; "MEDIUM_NETWORK";
    "MODERATE_ACTIVE_RATIO" ].

(** How many of [factors] are among [tags]. *)
Definition count_tags (tags factors : list string) : nat :=
  length (List.filter (fun f => existsb (String.eqb f) tags) factors).

Definition high_count (factors : list string) : nat := count_tags high_tags factors.
Definition medium_count (factors : list string) : nat := count_tags medium_tags factors.

(** LOW < MEDIUM < HIGH *)
Definition rank (confidence : string) : option nat :=
  if String.eqb confidence "LOW" then Some 0%nat
  else if String.eqb confidence "MEDIUM" then Some 1%nat
  else if String.eqb confidence "HIGH" then Some 2%nat
  else None.
End Spec.

(** ** Sample data: scenario A of the specification *)

Definition scenario_prev : snapshot :=
  {| timestamp := "2024-01-01T00:00:00"; total_nodes := 9000; active_nodes := 7200;
     tor_nodes := 1000; tor_percentage := 100 # 9; active_ratio := 0.8 |}.

Definition scenario_cur : snapshot :=
  {| timestamp := "2024-01-01T00:10:00"; total_nodes := 9100; active_nodes := 7280;
     tor_nodes := 1060; tor_percentage := 1060 # 91; active_ratio := 0.8 |}.

(** Scenario A with a smaller rise of the Tor count. *)
Definition scenario_cur_small : snapshot :=
  {| timestamp := "2024-01-01T00:10:00"; total_nodes := 9100; active_nodes := 7280;
     tor_nodes := 1030; tor_percentage := 1030 # 91; active_ratio := 0.8 |}.

(** A payload, an environment and a state to run the analyzer on. *)
Definition sample_payload : payload :=
  {| p_total_nodes := 4;
     p_nodes := [ ("203.0.113.7:8333", InfoList ["70016"; "'/Satoshi:25.0.0/'"]);
                  ("examplehiddenservice.onion:8333", InfoList ["70016"]);
                  ("198.51.100.2:8333", InfoNull);
                  ("192.0.2.9:8333", InfoList ["70015"; "'relay.onion'"]) ] |}.

Definition empty_payload : payload := {| p_total_nodes := 0; p_nodes := [] |}.

Definition sample_env (h : http_outcome) (w : write_outcome) : env :=
  {| now := "2024-01-01T00:20:00"; http := h; read_fails := false; write := w |}.

(** An analyzer holding scenario A, over a file saved one cycle earlier. *)
Definition sample_state : state :=
  {| self := window (Some scenario_cur) (Some scenario_prev);
     disk := Present (document (sample_env (RequestFails RequestException) WriteCompletes)
                               (window (Some scenario_prev) None));
     reports := [];
     requests := 0 |}.

(** ** The dashboard script ([main])

    The parts of [main] that read the analyzer and its two result dicts.
    Static HTML and layout calls are left out; every call that shows a value
    is one [element], with each formatted number kept as its format and its
    argument. *)

(** An exception that escapes [main]: one raised by the analyzer, or the
    [KeyError] of a subscript on a result dict. *)
Inductive crash : Type :=
  | Uncaught (e : exn)
  | KeyError (key : string).

Inductive shown (A : Type) : Type :=
  | Shown (a : A)
  | Crash (c : crash).
Arguments Shown {A} a.
Arguments Crash {A} c.

Definition shown_bind {A B : Type} (x : shown A) (f : A -> shown B) : shown B :=
  match x with
  | Shown a => f a
  | Crash c => Crash c
  end.

Declare Scope shown_scope.
Delimit Scope shown_scope with shown.
Notation "x <- e1 ;; e2" := (shown_bind e1 (fun x => e2))
  (at level 100, e1 at next level, right associativity) : shown_scope.

(** A call of an analyzer method from [main]. *)
Definition call {A : Type} (x : py A) : shown A :=
  match x with
  | Ok a => Shown a
  | Raise e => Crash (Uncaught e)
  end.

(** [tor_signal[key]] for the three keys that only the populated branch
    sets. *)
Definition item {A : Type} (key : string) (field : option A) : shown A :=
  match field with
  | Some a => Shown a
  | None => Crash (KeyError key)
  end.

(** A number inside an f-string, with its format specification. *)
Inductive formatted : Type :=
  | Plain (s : string)
  | Thousands (n : Z)            (* {n:,} *)
  | SignedThousands (n : Z)      (* {n:+,} *)
  | Fixed3 (x : Q)               (* {x:.3f} *)
  | SignedFixed1Percent (x : Q). (* {x:+.1f}% *)

Inductive element : Type :=
  | ConfidenceHeader (color emoji confidence : string)
  | Metric (label : string) (value : formatted) (delta : option formatted)
  | Info (text : string)
  | FactorLine (color emoji readable_factor : string)
  | ReasoningBox (reasoning : reasoning_text)
  | Banner (signal_class signal emoji confidence_text bias : string)
           (reasoning : reasoning_text) (tor_change : Z) (percentage_change : Q).

(** [s.replace('_', ' ')] *)
Fixpoint replace_underscores (s : string) : string :=
  match s with
  | EmptyString => EmptyString
  | String c rest =>
      String (if Ascii.eqb c "_"%char then " "%char else c) (replace_underscores rest)
  end.

Definition is_upper (c : Ascii.ascii) : bool :=
  (65 <=? Ascii.nat_of_ascii c)%nat && (Ascii.nat_of_ascii c <=? 90)%nat.
Definition is_lower (c : Ascii.ascii) : bool :=
  (97 <=? Ascii.nat_of_ascii c)%nat && (Ascii.nat_of_ascii c <=? 122)%nat.
Definition to_upper (c : Ascii.ascii) : Ascii.ascii :=
  if is_lower c then Ascii.ascii_of_nat (Ascii.nat_of_ascii c - 32) else c.
Definition to_lower (c : Ascii.ascii) : Ascii.ascii :=
  if is_upper c then Ascii.ascii_of_nat (Ascii.nat_of_ascii c + 32) else c.

(** [s.title()] on ASCII text: a letter that follows a letter is lowered,
    any other letter is raised. *)
Fixpoint title_from (previous_is_cased : bool) (s : string) : string :=
  match s with
  | EmptyString => EmptyString
  | String c rest =>
      if is_upper c || is_lower c then
        String (if previous_is_cased then to_lower c else to_upper c) (title_from true rest)
      else String c (title_from false rest)
  end.

Definition title (s : string) : string := title_from false s.

(** Lines 354-363: the colour and emoji of the confidence level. *)
Definition confidence_style (confidence : string) : string * string :=
  if String.eqb confidence "HIGH" then ("#00ff00", "🟢")
  else if String.eqb confidence "MEDIUM" then ("#ffff00", "🟡")
  else ("#ff4444", "🔴").

(** Line 385: the network size shown beside the totals. *)
Definition network_size_label (total : Z) : string :=
  if total >? 10000 then "LARGE" else if total >? 8000 then "MEDIUM" else "SMALL".

(** Lines 374-393: the node comparison. *)
Definition node_comparison (a : analyzer) (tor_signal : TorSignal.t)
           (network_signal : NetSignal.t) : shown (list element) :=
  (if truthy (previous_data a) then
     let m1 := Metric "🕒 PREVIOUS TOR NODES"
                      (Thousands (TorSignal.previous_tor tor_signal)) None in
     let m2 := Metric "🕒 PREVIOUS TOTAL"
                      (Thousands (NetSignal.previous_total network_signal)) None in
     ratio <- item "active_ratio" (TorSignal.active_ratio tor_signal) ;;
     let m3 := Metric "📊 ACTIVE RATIO" (Fixed3 ratio) None in
     let m4 := Metric "🟢 CURRENT TOR NODES"
                      (Thousands (TorSignal.current_tor tor_signal)) None in
     total <- item "total_nodes" (TorSignal.total_nodes tor_signal) ;;
     let m5 := Metric "🟢 CURRENT TOTAL" (Thousands total) None in
     let m6 := Metric "🌐 NETWORK SIZE" (Plain (network_size_label total)) None in
     let m7 := Metric "📈 TOR NODE CHANGE"
                      (SignedThousands (TorSignal.tor_change tor_signal))
                      (Some (SignedFixed1Percent (TorSignal.percentage_change tor_signal))) in
     let m8 := Metric "📈 TOTAL NODE CHANGE"
                      (SignedThousands (NetSignal.total_change network_signal))
                      (Some (Plain "nodes")) in
     Shown [m1; m2; m3; m4; m5; m6; m7; m8]
   else
     Shown [Info "🔄 Update node data to see comparison (current → previous)"])%shown.

(** Lines 407-415: the colour and emoji of one confidence factor. *)
Definition factor_style (factor : string) : string * string :=
  if String.prefix "LARGE" factor || String.eqb factor "HEALTHY_ACTIVE_RATIO" then
    ("#00ff00", "✅")
  else if String.prefix "MEDIUM" factor || String.eqb factor "MODERATE_ACTIVE_RATIO" then
    ("#ffff00", "⚠️")
  else ("#ff4444", "❌").

Definition factor_line (factor : string) : element :=
  let '(factor_color, factor_emoji) := factor_style factor in
  FactorLine factor_color factor_emoji (title (replace_underscores factor)).

(** Lines 402-436: the signal results. *)
Definition signal_results (a : analyzer) (tor_signal : TorSignal.t) : shown (list element) :=
  (if truthy (current_data a) then
     factors <- item "confidence_factors" (TorSignal.confidence_factors tor_signal) ;;
     Shown (map factor_line factors ++
            [ Metric "🎯 TRADING SIGNAL" (Plain (TorSignal.signal tor_signal)) None;
              Metric "📡 MARKET BIAS" (Plain (TorSignal.bias tor_signal)) None;
              ReasoningBox (TorSignal.reasoning tor_signal) ])%list
   else Shown [Info "🔄 Update node data to see signals"])%shown.

(** Lines 345-438: the two columns of the signal analysis. *)
Definition signal_analysis (a : analyzer) : shown (list element) :=
  (tor_signal <- call (calculate_high_confidence_signal a) ;;
   network_signal <- call (calculate_network_signal a) ;;
   let confidence := TorSignal.confidence tor_signal in
   let '(confidence_color, confidence_emoji) := confidence_style confidence in
   comparison <- node_comparison a tor_signal network_signal ;;
   results <- signal_results a tor_signal ;;
   Shown (ConfidenceHeader confidence_color confidence_emoji confidence
            :: comparison ++ results)%list)%shown.

(** Lines 444-473: class, emoji and confidence text of the main signal. *)
Definition signal_style (signal confidence : string) : string * string * string :=
  if contains "SELL" signal then
    if String.eqb confidence "HIGH" then ("signal-sell", "🔴", "HIGH CONFIDENCE")
    else if String.eqb confidence "MEDIUM" then ("signal-sell", "🔴", "MEDIUM CONFIDENCE")
    else ("signal-neutral", "🟡", "LOW CONFIDENCE")
  else if contains "BUY" signal then
    if String.eqb confidence "HIGH" then ("signal-buy", "🟢", "HIGH CONFIDENCE")
    else if String.eqb confidence "MEDIUM" then ("signal-buy", "🟢", "MEDIUM CONFIDENCE")
    else ("signal-neutral", "🟡", "LOW CONFIDENCE")
  else ("signal-neutral", "🟡", "NEUTRAL").

(** Lines 440-480: the main signal display. *)
Definition signal_banner (a : analyzer) : shown (list element) :=
  (if truthy (current_data a) && truthy (previous_data a) then
     tor_signal_data <- call (calculate_high_confidence_signal a) ;;
     let '(signal_class, emoji, confidence_text) :=
       signal_style (TorSignal.signal tor_signal_data)
                    (TorSignal.confidence tor_signal_data) in
     Shown [ Banner signal_class (TorSignal.signal tor_signal_data) emoji confidence_text
                    (TorSignal.bias tor_signal_data)
                    (TorSignal.reasoning tor_signal_data)
                    (TorSignal.tor_change tor_signal_data)
                    (TorSignal.percentage_change tor_signal_data) ]
   else Shown [])%shown.

(** Lines 506-535: class, text and emoji of the signal on a coin card. *)
Definition coin_signal_style (signal confidence : string) : string * string * string :=
  if contains "SELL" signal then
    if String.eqb confidence "HIGH" then ("signal-sell", "HIGH CONF SELL", "🔴")
    else if String.eqb confidence "MEDIUM" then ("signal-sell", "MED CONF SELL", "🔴")
    else ("signal-neutral", "LOW CONF SELL", "🟡")
  else if contains "BUY" signal then
    if String.eqb confidence "HIGH" then ("signal-buy", "HIGH CONF BUY", "🟢")
    else if String.eqb confidence "MEDIUM" then ("signal-buy", "MED CONF BUY", "🟢")
    else ("signal-neutral", "LOW CONF BUY", "🟡")
  else ("signal-neutral", signal, "🟡").

(** ** A refresh cycle

    [main] builds a new analyzer, which loads the file, and a click on the
    update button then calls [update_node_data] (lines 253 and 325-331). *)

(** [CryptoAnalyzer()] *)
Definition init (e : env) : M unit := load_node_data e.

Definition refresh (e : env) : M bool :=
  (init e ;; update_node_data e)%M.

(** One refresh per environment, each in a new run of the script. *)
Fixpoint refreshes (es : list env) : M (list bool) :=
  match es with
  | [] => ret []
  | e :: rest =>
      (ok <- refresh e ;;
       oks <- refreshes rest ;;
       ret (ok :: oks))%M
  end.

(** ** Further derived forms *)

(** The snapshot [fetch_node_data] builds from a payload. *)
Definition snapshot_of_payload (stamp : string) (data : payload) : snapshot :=
  {| timestamp := stamp;
     total_nodes := p_total_nodes data;
     active_nodes := fst (count_nodes (p_nodes data));
     tor_nodes := snd (count_nodes (p_nodes data));
     tor_percentage :=
       if p_total_nodes data >? 0
       then (inject_Z (snd (count_nodes (p_nodes data))) /
             inject_Z (p_total_nodes data) * 100)%Q
       else 0%Q;
     active_ratio :=
       if p_total_nodes data >? 0
       then (inject_Z (fst (count_nodes (p_nodes data))) /
             inject_Z (p_total_nodes data))%Q
       else 0%Q |}.

(** What a fetch gives in an environment. *)
Definition fetched (e : env) : option snapshot :=
  match http e with
  | Response data => Some (snapshot_of_payload (now e) data)
  | RequestFails _ => None
  end.

(** The attributes a new analyzer gets from a readable file. *)
Definition persisted (f : file) : analyzer :=
  match f with
  | Missing => window None None
  | Present content =>
      match json_load content with
      | Some (JObject members) =>
          {| current_data := default PNone (members !! "current_data");
             previous_data := default PNone (members !! "previous_data") |}
      | _ => window None None
      end
  end.

(** The two newest entries of a history, newest first. *)
Definition newest_two (history : list pyval) : analyzer :=
  {| current_data := nth 0 history PNone; previous_data := nth 1 history PNone |}.

(** The same world around an analyzer with other attributes. *)
Definition with_self (a : analyzer) (s : state) : state :=
  {| self := a; disk := disk s; reports := reports s; requests := requests s |}.

(** The attributes after a rotation that installs [d]. *)
Definition rotated (d : snapshot) (a : analyzer) : analyzer :=
  {| current_data := PSnapshot d; previous_data := current_data a |}.

(** The file after [save_node_data] has run on attributes [a]. *)
Definition written (e : env) (a : analyzer) (before : file) : file :=
  match write e with
  | WriteCompletes => Present (document e a)
  | WriteFailsAfter n => Present (firstn n (document e a))
  | OpenFails => before
  end.

(** A previous snapshot is never held without a current one. *)
Definition consistent (a : analyzer) : Prop :=
  truthy (previous_data a) = true -> truthy (current_data a) = true.

(** The disk can be read and written. *)
Definition healthy (e : env) : Prop :=
  read_fails e = false /\ write e = WriteCompletes.

(** How many factor lines are shown in a colour. *)
Definition lines_in_colour (colour : string) (factors : list string) : nat :=
  length (List.filter (fun factor => String.eqb (fst (factor_style factor)) colour) factors).

(** Environments for three refreshes: a fetch, a failed request, a fetch. *)
Definition sample_session : list env :=
  [ sample_env (Response sample_payload) WriteCompletes;
    sample_env (RequestFails RequestException) WriteCompletes;
    sample_env (Response empty_payload) WriteCompletes ].

(** A state with no data file yet. *)
Definition fresh_state : state :=
  {| self := window None None; disk := Missing; reports := []; requests := 0 |}.

(** The signal of the opposite direction. *)
Definition mirror_signal (signal : string) : string :=
  if String.eqb signal "STRONG SELL" then "STRONG BUY"
  else if String.eqb signal "STRONG BUY" then "STRONG SELL"
  else if String.eqb signal "SELL" then "BUY"
  else if String.eqb signal "BUY" then "SELL"
  else if String.eqb signal "SLIGHT SELL" then "SLIGHT BUY"
  else if String.eqb signal "SLIGHT BUY" then "SLIGHT SELL"
  else signal.

(** Scenario A with the Tor count falling by 60 instead of rising. *)
Definition scenario_cur_down : snapshot :=
  {| timestamp := "2024-01-01T00:10:00"; total_nodes := 9100; active_nodes := 7280;
     tor_nodes := 940; tor_percentage := 940 # 91; active_ratio := 0.8 |}.

(** The order of the network signals. *)
Definition network_rank (network_signal : string) : option nat :=
  if String.eqb network_signal "NETWORK SHRINKING" then Some 0%nat
  else if String.eqb network_signal "NETWORK STABLE" then Some 1%nat
  else if String.eqb network_signal "NETWORK GROWING" then Some 2%nat
  else if String.eqb network_signal "NETWORK STRONG GROWTH" then Some 3%nat
  else None.

(** * Verification *)

(** ** Reflection of the comparisons *)

Lemma Qgtb_true x y : Qgtb x y = true <-> (y < x)%Q.
Proof.
  unfold Qgtb. rewrite negb_true_iff, <- not_true_iff_false, Qle_bool_iff.
  split; [apply Qnot_le_lt | apply Qlt_not_le].
Qed.

Lemma Qgtb_false x y : Qgtb x y = false <-> (x <= y)%Q.
Proof. unfold Qgtb. rewrite negb_false_iff. apply Qle_bool_iff. Qed.

Lemma Qltb_true x y : Qltb x y = true <-> (x < y)%Q.
Proof. apply Qgtb_true. Qed.

Lemma Qltb_false x y : Qltb x y = false <-> (y <= x)%Q.
Proof. apply Qgtb_false. Qed.

Lemma Qle_bool_false x y : Qle_bool x y = false <-> (y < x)%Q.
Proof.
  rewrite <- not_true_iff_false, Qle_bool_iff.
  split; [apply Qnot_le_lt | apply Qlt_not_le].
Qed.

(** ** The percentage never divides by zero *)

Lemma percentage_of_ok tor_change previous_tor :
  percentage_of tor_change previous_tor =
  Ok (if previous_tor >? 0
      then (inject_Z tor_change / inject_Z previous_tor * 100)%Q
      else 0%Q).
Proof.
  unfold percentage_of, py_truediv.
  destruct (Z.gtb_spec previous_tor 0) as [Hpos | Hle]; [| reflexivity].
  destruct (Z.eqb_spec previous_tor 0) as [-> | _]; [lia | reflexivity].
Qed.

Lemma calculate_populated c p :
  calculate_high_confidence_signal (window (Some c) (Some p)) =
  Ok (populated_result c p
        (if tor_nodes p >? 0
         then (inject_Z (tor_nodes c - tor_nodes p) / inject_Z (tor_nodes p) * 100)%Q
         else 0%Q)).
Proof.
  unfold calculate_high_confidence_signal, populated_result; cbn [window slot truthy
    current_data previous_data negb orb getitem py_bind].
  rewrite percentage_of_ok; cbn [py_bind].
  destruct (decide_signal _ _ _) as [[sg bs] rs]; reflexivity.
Qed.

Lemma medium_or_high_true conf :
  medium_or_high conf = true <-> conf = "MEDIUM" \/ conf = "HIGH".
Proof. unfold medium_or_high. rewrite orb_true_iff, !String.eqb_eq. tauto. Qed.

Lemma rule_up_reflect tc pc a b (g : bool) (G : Prop) :
  (g = true <-> G) ->
  (tc >? a) && Qgtb pc b && g = true <-> a < tc /\ (b < pc)%Q /\ G.
Proof.
  intros Hg. rewrite !andb_true_iff, Qgtb_true, Hg, Z.gtb_lt. tauto.
Qed.

Lemma rule_down_reflect tc pc a b (g : bool) (G : Prop) :
  (g = true <-> G) ->
  (tc <? a) && Qltb pc b && g = true <-> tc < a /\ (pc < b)%Q /\ G.
Proof.
  intros Hg. rewrite !andb_true_iff, Qltb_true, Hg, Z.ltb_lt. tauto.
Qed.

Ltac split_index j Hj Hn :=
  destruct j as [| j];
  [ try lia; injection Hn as <-; cbn [Spec.applies]
  | try lia; try split_index j Hj Hn ].

Ltac earlier_rules :=
  let j := fresh "j" in
  let r' := fresh "r" in
  let Hj := fresh "Hj" in
  let Hn := fresh "Hn" in
  intros j r' Hj Hn; split_index j Hj Hn.

Ltac pick_rule i tac :=
  exists i; eexists;
  split; [reflexivity | split; [tac | split; [reflexivity | earlier_rules]]].

Lemma decide_signal_first_match tc pc conf :
  Spec.first_match Spec.decision_table tc pc conf
    (fst (fst (decide_signal tc pc conf)), snd (fst (decide_signal tc pc conf))).
Proof.
  pose proof (rule_up_reflect tc pc 50 5 _ _ (String.eqb_eq conf "HIGH")) as R1.
  pose proof (rule_down_reflect tc pc (-50) (-5) _ _ (String.eqb_eq conf "HIGH")) as R2.
  pose proof (rule_up_reflect tc pc 25 2.5 _ _ (medium_or_high_true conf)) as R3.
  pose proof (rule_down_reflect tc pc (-25) (-2.5) _ _ (medium_or_high_true conf)) as R4.
  unfold decide_signal.
  destruct (_ && _ && _) eqn:H1 in |- *.
  { pick_rule 0%nat ltac:(apply R1, H1). }
  destruct (_ && _ && _) eqn:H2 in |- *.
  { pick_rule 1%nat ltac:(apply R2, H2).
    rewrite <- R1; congruence. }
  destruct (_ && _ && _) eqn:H3 in |- *.
  { pick_rule 2%nat ltac:(apply R3, H3).
    - rewrite <- R1; congruence.
    - rewrite <- R2; congruence. }
  destruct (_ && _ && _) eqn:H4 in |- *.
  { pick_rule 3%nat ltac:(apply R4, H4).
    - rewrite <- R1; congruence.
    - rewrite <- R2; congruence.
    - rewrite <- R3; congruence. }
  destruct (Z.gtb_spec tc 10) as [H5 | H5].
  { pick_rule 4%nat ltac:(exact H5).
    - rewrite <- R1; congruence.
    - rewrite <- R2; congruence.
    - rewrite <- R3; congruence.
    - rewrite <- R4; congruence. }
  destruct (Z.ltb_spec tc (-10)) as [H6 | H6].
  { pick_rule 5%nat ltac:(exact H6).
    - rewrite <- R1; congruence.
    - rewrite <- R2; congruence.
    - rewrite <- R3; congruence.
    - rewrite <- R4; congruence.
    - lia. }
  pick_rule 6%nat ltac:(exact I).
  - rewrite <- R1; congruence.
  - rewrite <- R2; congruence.
  - rewrite <- R3; congruence.
  - rewrite <- R4; congruence.
  - lia.
  - lia.
Qed.

(** ** Claims about the signal engine *)

(** C1. For a window with both snapshots, the (signal, bias) pair returned by
    [calculate_high_confidence_signal] is the verdict of the first rule of
    the seven-rule decision table that applies to the returned tor_change,
    percentage_change and confidence: that rule applies and no rule before it
    does.  In particular, whenever rule 1 applies the result is STRONG SELL /
    HIGHLY BEARISH, although rule 3 applies as well. *)
Theorem calculate_signal_first_match (c p : snapshot) :
  exists r : TorSignal.t,
    calculate_high_confidence_signal (window (Some c) (Some p)) = Ok r /\
    Spec.first_match Spec.decision_table
      (TorSignal.tor_change r) (TorSignal.percentage_change r) (TorSignal.confidence r)
      (TorSignal.signal r, TorSignal.bias r) /\
    (50 < TorSignal.tor_change r /\ (5 < TorSignal.percentage_change r)%Q /\
     TorSignal.confidence r = "HIGH" ->
     (25 < TorSignal.tor_change r /\ (2.5 < TorSignal.percentage_change r)%Q /\
      (TorSignal.confidence r = "MEDIUM" \/ TorSignal.confidence r = "HIGH")) /\
     TorSignal.signal r = "STRONG SELL" /\ TorSignal.bias r = "HIGHLY BEARISH").
Proof.
  eexists; split; [apply calculate_populated |].
  cbn [populated_result TorSignal.tor_change TorSignal.percentage_change
       TorSignal.confidence TorSignal.signal TorSignal.bias].
  set (tc := tor_nodes c - tor_nodes p).
  set (pc := if tor_nodes p >? 0 then _ else _).
  set (conf := overall_confidence _).
  pose proof (decide_signal_first_match tc pc conf) as Hfirst.
  split; [exact Hfirst |].
  intros (Htc & Hpc & Hconf).
  split.
  { split; [lia |]. split; [| now right].
    eapply Qlt_trans; [| exact Hpc]. reflexivity. }
  destruct Hfirst as (i & r & Hnth & _ & Hverdict & Hearlier).
  destruct i as [| i].
  - injection Hnth as <-. cbn [Spec.verdict] in Hverdict.
    injection Hverdict as <- <-. split; reflexivity.
  - exfalso. eapply (Hearlier 0%nat); [lia | reflexivity |].
    cbn [Spec.applies]. auto.
Qed.

(** C3. When at least one slot of the window is missing, the result is
    INSUFFICIENT_DATA with confidence LOW, bias NEED MORE DATA, tor_change 0,
    each of current_tor and previous_tor taken from its snapshot when that
    one exists and 0 otherwise; the percentage is the constant 0, the
    reasoning the fixed text, and the factor list, total_nodes and
    active_ratio are not set. *)
Theorem insufficient_data_result (c p : option snapshot) :
  c = None \/ p = None ->
  calculate_high_confidence_signal (window c p) =
  Ok {| TorSignal.current_tor := match c with Some d => tor_nodes d | None => 0 end;
        TorSignal.previous_tor := match p with Some d => tor_nodes d | None => 0 end;
        TorSignal.tor_change := 0;
        TorSignal.percentage_change := 0;
        TorSignal.signal := "INSUFFICIENT_DATA";
        TorSignal.confidence := "LOW";
        TorSignal.bias := "NEED MORE DATA";
        TorSignal.reasoning := NeedTwoDataPoints;
        TorSignal.confidence_factors := None;
        TorSignal.total_nodes := None;
        TorSignal.active_ratio := None |}.
Proof.
  intros [-> | ->]; [destruct p | destruct c]; reflexivity.
Qed.

Lemma insufficient_data_result_witness :
  calculate_high_confidence_signal (window (Some scenario_cur) None) =
  Ok {| TorSignal.current_tor := 1060;
        TorSignal.previous_tor := 0;
        TorSignal.tor_change := 0;
        TorSignal.percentage_change := 0;
        TorSignal.signal := "INSUFFICIENT_DATA";
        TorSignal.confidence := "LOW";
        TorSignal.bias := "NEED MORE DATA";
        TorSignal.reasoning := NeedTwoDataPoints;
        TorSignal.confidence_factors := None;
        TorSignal.total_nodes := None;
        TorSignal.active_ratio := None |}.
Proof.
  exact (insufficient_data_result (Some scenario_cur) None (or_intror eq_refl)).
Defined.

(** C5. [calculate_network_signal] answers INSUFFICIENT_DATA when a slot is
    missing; otherwise total_change is current.total_nodes minus
    previous.total_nodes, classified as STRONG GROWTH above 100, GROWING
    above 50, STABLE above 0 and SHRINKING for everything else, so that a
    total_change of 0 is SHRINKING. *)
Theorem network_signal_classification (c p : option snapshot) :
  exists r : NetSignal.t,
    calculate_network_signal (window c p) = Ok r /\
    match c, p with
    | Some cur, Some prev =>
        let change := total_nodes cur - total_nodes prev in
        NetSignal.total_change r = change /\
        (100 < change -> NetSignal.network_signal r = "NETWORK STRONG GROWTH") /\
        (50 < change <= 100 -> NetSignal.network_signal r = "NETWORK GROWING") /\
        (0 < change <= 50 -> NetSignal.network_signal r = "NETWORK STABLE") /\
        (change <= 0 -> NetSignal.network_signal r = "NETWORK SHRINKING") /\
        (change = 0 -> NetSignal.network_signal r = "NETWORK SHRINKING")
    | _, _ => NetSignal.network_signal r = "INSUFFICIENT_DATA"
    end.
Proof.
  destruct c as [cur |], p as [prev |];
    try (eexists; split; [reflexivity | reflexivity]).
  eexists; split; [reflexivity |].
  cbn [NetSignal.total_change NetSignal.network_signal].
  set (change := total_nodes cur - total_nodes prev).
  unfold classify_network.
  split; [reflexivity |].
  destruct (Z.gtb_spec change 100); [| destruct (Z.gtb_spec change 50);
    [| destruct (Z.gtb_spec change 0)]];
    repeat split; intros; (reflexivity || lia).
Qed.

(** ** The confidence factors *)

Lemma tor_change_factor_cases tc :
  (50 < Z.abs tc /\ tor_change_factor tc = "LARGE_TOR_CHANGE") \/
  (25 < Z.abs tc <= 50 /\ tor_change_factor tc = "MEDIUM_TOR_CHANGE") \/
  (Z.abs tc <= 25 /\ tor_change_factor tc = "SMALL_TOR_CHANGE").
Proof.
  unfold tor_change_factor.
  destruct (Z.gtb_spec (Z.abs tc) 50); [auto |].
  destruct (Z.gtb_spec (Z.abs tc) 25); [right; left | right; right]; split; (lia || reflexivity).
Qed.

Lemma percentage_factor_cases pc :
  ((5 < Qabs pc)%Q /\ percentage_factor pc = "LARGE_PERCENTAGE_CHANGE") \/
  ((2.5 < Qabs pc)%Q /\ (Qabs pc <= 5)%Q /\
   percentage_factor pc = "MEDIUM_PERCENTAGE_CHANGE") \/
  ((Qabs pc <= 2.5)%Q /\ percentage_factor pc = "SMALL_PERCENTAGE_CHANGE").
Proof.
  unfold percentage_factor.
  destruct (Qgtb (Qabs pc) 5) eqn:H5.
  { left. split; [apply Qgtb_true, H5 | reflexivity]. }
  apply Qgtb_false in H5.
  destruct (Qgtb (Qabs pc) 2.5) eqn:H2.
  { right; left. split; [apply Qgtb_true, H2 | split; [exact H5 | reflexivity]]. }
  right; right. split; [apply Qgtb_false, H2 | reflexivity].
Qed.

Lemma network_factor_cases total :
  (10000 < total /\ network_factor total = "LARGE_NETWORK") \/
  (8000 < total <= 10000 /\ network_factor total = "MEDIUM_NETWORK") \/
  (total <= 8000 /\ network_factor total = "SMALL_NETWORK").
Proof.
  unfold network_factor.
  destruct (Z.gtb_spec total 10000); [auto |].
  destruct (Z.gtb_spec total 8000); [right; left | right; right]; split; (lia || reflexivity).
Qed.

Lemma ratio_factor_cases ratio :
  (((0.7 <= ratio)%Q /\ (ratio <= 0.9)%Q) /\ ratio_factor ratio = "HEALTHY_ACTIVE_RATIO") \/
  (((0.6 <= ratio)%Q /\ (ratio <= 0.95)%Q) /\ ~ ((0.7 <= ratio)%Q /\ (ratio <= 0.9)%Q) /\
   ratio_factor ratio = "MODERATE_ACTIVE_RATIO") \/
  (~ ((0.6 <= ratio)%Q /\ (ratio <= 0.95)%Q) /\ ratio_factor ratio = "POOR_ACTIVE_RATIO").
Proof.
  unfold ratio_factor.
  destruct (Qle_bool 0.7 ratio && Qle_bool ratio 0.9) eqn:Hh.
  { left. apply andb_true_iff in Hh as [H1 H2]. apply Qle_bool_iff in H1, H2. auto. }
  assert (~ ((0.7 <= ratio)%Q /\ (ratio <= 0.9)%Q)) as Hnh.
  { intros [H1 H2]. apply Qle_bool_iff in H1, H2. rewrite H1, H2 in Hh. discriminate. }
  destruct (Qle_bool 0.6 ratio && Qle_bool ratio 0.95) eqn:Hm.
  { right; left. apply andb_true_iff in Hm as [H1 H2]. apply Qle_bool_iff in H1, H2. auto. }
  right; right. split; [| reflexivity].
  intros [H1 H2]. apply Qle_bool_iff in H1, H2. rewrite H1, H2 in Hm. discriminate.
Qed.

(** On the tags the four factors can take, counting by prefix (the source)
    and counting by tag (the specification) give the same confidence. *)
Lemma overall_confidence_spec f1 f2 f3 f4 :
  In f1 ["LARGE_TOR_CHANGE"; "MEDIUM_TOR_CHANGE"; "SMALL_TOR_CHANGE"] ->
  In f2 ["LARGE_PERCENTAGE_CHANGE"; "MEDIUM_PERCENTAGE_CHANGE"; "SMALL_PERCENTAGE_CHANGE"] ->
  In f3 ["LARGE_NETWORK"; "MEDIUM_NETWORK"; "SMALL_NETWORK"] ->
  In f4 ["HEALTHY_ACTIVE_RATIO"; "MODERATE_ACTIVE_RATIO"; "POOR_ACTIVE_RATIO"] ->
  let factors := [f1; f2; f3; f4] in
  (overall_confidence factors = "HIGH" <-> (3 <= Spec.high_count factors)%nat) /\
  (overall_confidence factors = "MEDIUM" <->
     (Spec.high_count factors < 3)%nat /\
     (3 <= Spec.high_count factors + Spec.medium_count factors)%nat) /\
  (overall_confidence factors = "LOW" <->
     (Spec.high_count factors < 3)%nat /\
     (Spec.high_count factors + Spec.medium_count factors < 3)%nat).
Proof.
  intros H1 H2 H3 H4.
  cbn [In] in H1, H2, H3, H4.
  destruct H1 as [<- | [<- | [<- | []]]];
  destruct H2 as [<- | [<- | [<- | []]]];
  destruct H3 as [<- | [<- | [<- | []]]];
  destruct H4 as [<- | [<- | [<- | []]]];
  vm_compute;
  repeat split; intros; try discriminate; try lia; try reflexivity;
  repeat match goal with H : _ /\ _ |- _ => destruct H end; lia.
Qed.

Lemma tor_change_factor_in tc :
  In (tor_change_factor tc) ["LARGE_TOR_CHANGE"; "MEDIUM_TOR_CHANGE"; "SMALL_TOR_CHANGE"].
Proof.
  destruct (tor_change_factor_cases tc) as [[_ ->] | [[_ ->] | [_ ->]]]; cbn; auto.
Qed.

Lemma percentage_factor_in pc :
  In (percentage_factor pc)
     ["LARGE_PERCENTAGE_CHANGE"; "MEDIUM_PERCENTAGE_CHANGE"; "SMALL_PERCENTAGE_CHANGE"].
Proof.
  destruct (percentage_factor_cases pc) as [[_ ->] | [(_ & _ & ->) | [_ ->]]]; cbn; auto.
Qed.

Lemma network_factor_in total :
  In (network_factor total) ["LARGE_NETWORK"; "MEDIUM_NETWORK"; "SMALL_NETWORK"].
Proof.
  destruct (network_factor_cases total) as [[_ ->] | [[_ ->] | [_ ->]]]; cbn; auto.
Qed.

Lemma ratio_factor_in ratio :
  In (ratio_factor ratio)
     ["HEALTHY_ACTIVE_RATIO"; "MODERATE_ACTIVE_RATIO"; "POOR_ACTIVE_RATIO"].
Proof.
  destruct (ratio_factor_cases ratio) as [[_ ->] | [(_ & _ & ->) | [_ ->]]]; cbn; auto.
Qed.

(** C2. For a window with both snapshots the result carries
    tor_change = current.tor_nodes - previous.tor_nodes, percentage_change =
    tor_change / previous.tor_nodes * 100 when previous.tor_nodes > 0 and 0
    otherwise, and the four tags in the order magnitude, percentage
    magnitude, network size, active ratio, with these boundaries: LARGE iff
    the absolute value exceeds 50 (resp. 5, resp. total_nodes exceeds 10000),
    MEDIUM iff it exceeds 25 (resp. 2.5, resp. 8000) without exceeding the
    LARGE bound, SMALL otherwise; HEALTHY iff 0.7 <= active_ratio <= 0.9,
    MODERATE iff 0.6 <= active_ratio <= 0.95 and not HEALTHY, POOR otherwise.
    The confidence is HIGH iff at least three tags are LARGE/HEALTHY, MEDIUM
    iff not so and at least three are LARGE/HEALTHY/MEDIUM/MODERATE, LOW
    otherwise. *)
Theorem confidence_factor_boundaries (c p : snapshot) :
  exists (r : TorSignal.t) (f1 f2 f3 f4 : string),
    calculate_high_confidence_signal (window (Some c) (Some p)) = Ok r /\
    let tc := tor_nodes c - tor_nodes p in
    let pc := TorSignal.percentage_change r in
    let total := total_nodes c in
    let ratio := active_ratio c in
    let conf := TorSignal.confidence r in
    TorSignal.tor_change r = tc /\
    (0 < tor_nodes p -> pc = (inject_Z tc / inject_Z (tor_nodes p) * 100)%Q) /\
    (tor_nodes p <= 0 -> pc = 0%Q) /\
    TorSignal.confidence_factors r = Some [f1; f2; f3; f4] /\
    (f1 = "LARGE_TOR_CHANGE" <-> 50 < Z.abs tc) /\
    (f1 = "MEDIUM_TOR_CHANGE" <-> 25 < Z.abs tc <= 50) /\
    (f1 = "SMALL_TOR_CHANGE" <-> Z.abs tc <= 25) /\
    (f2 = "LARGE_PERCENTAGE_CHANGE" <-> (5 < Qabs pc)%Q) /\
    (f2 = "MEDIUM_PERCENTAGE_CHANGE" <-> (2.5 < Qabs pc)%Q /\ (Qabs pc <= 5)%Q) /\
    (f2 = "SMALL_PERCENTAGE_CHANGE" <-> (Qabs pc <= 2.5)%Q) /\
    (f3 = "LARGE_NETWORK" <-> 10000 < total) /\
    (f3 = "MEDIUM_NETWORK" <-> 8000 < total <= 10000) /\
    (f3 = "SMALL_NETWORK" <-> total <= 8000) /\
    (f4 = "HEALTHY_ACTIVE_RATIO" <-> (0.7 <= ratio)%Q /\ (ratio <= 0.9)%Q) /\
    (f4 = "MODERATE_ACTIVE_RATIO" <->
       ((0.6 <= ratio)%Q /\ (ratio <= 0.95)%Q) /\ ~ ((0.7 <= ratio)%Q /\ (ratio <= 0.9)%Q)) /\
    (f4 = "POOR_ACTIVE_RATIO" <-> ~ ((0.6 <= ratio)%Q /\ (ratio <= 0.95)%Q)) /\
    (conf = "HIGH" <-> (3 <= Spec.high_count [f1; f2; f3; f4])%nat) /\
    (conf = "MEDIUM" <->
       (Spec.high_count [f1; f2; f3; f4] < 3)%nat /\
       (3 <= Spec.high_count [f1; f2; f3; f4] + Spec.medium_count [f1; f2; f3; f4])%nat) /\
    (conf = "LOW" <->
       (Spec.high_count [f1; f2; f3; f4] < 3)%nat /\
       (Spec.high_count [f1; f2; f3; f4] + Spec.medium_count [f1; f2; f3; f4] < 3)%nat).
Proof.
  pose (tc := tor_nodes c - tor_nodes p).
  pose (pc := if tor_nodes p >? 0
              then (inject_Z tc / inject_Z (tor_nodes p) * 100)%Q else 0%Q).
  exists (populated_result c p pc), (tor_change_factor tc), (percentage_factor pc),
         (network_factor (total_nodes c)), (ratio_factor (active_ratio c)).
  split; [apply calculate_populated |].
  cbn [populated_result TorSignal.tor_change TorSignal.percentage_change
       TorSignal.confidence TorSignal.confidence_factors].
  fold tc. cbv zeta.
  split; [reflexivity |].
  split. { intros Hpos. subst pc. destruct (Z.gtb_spec (tor_nodes p) 0); [reflexivity | lia]. }
  split. { intros Hle. subst pc. destruct (Z.gtb_spec (tor_nodes p) 0); [lia | reflexivity]. }
  split; [reflexivity |].
  clearbody pc. clearbody tc.
  pose proof (overall_confidence_spec _ _ _ _ (tor_change_factor_in tc)
                (percentage_factor_in pc) (network_factor_in (total_nodes c))
                (ratio_factor_in (active_ratio c))) as Hconf.
  cbv zeta in Hconf.
  repeat match goal with |- _ /\ _ => split end; try apply Hconf.
  - destruct (tor_change_factor_cases tc) as [[H ->] | [[H ->] | [H ->]]];
      split; intros; (discriminate || lia || reflexivity).
  - destruct (tor_change_factor_cases tc) as [[H ->] | [[H ->] | [H ->]]];
      split; intros; (discriminate || lia || reflexivity).
  - destruct (tor_change_factor_cases tc) as [[H ->] | [[H ->] | [H ->]]];
      split; intros; (discriminate || lia || reflexivity).
  - destruct (percentage_factor_cases pc) as [[H ->] | [(H & H' & ->) | [H ->]]];
      split; intros; try discriminate; try reflexivity; lra.
  - destruct (percentage_factor_cases pc) as [[H ->] | [(H & H' & ->) | [H ->]]];
      split; intros; try discriminate; try reflexivity; lra.
  - destruct (percentage_factor_cases pc) as [[H ->] | [(H & H' & ->) | [H ->]]];
      split; intros; try discriminate; try reflexivity; lra.
  - destruct (network_factor_cases (total_nodes c)) as [[H ->] | [[H ->] | [H ->]]];
      split; intros; (discriminate || lia || reflexivity).
  - destruct (network_factor_cases (total_nodes c)) as [[H ->] | [[H ->] | [H ->]]];
      split; intros; (discriminate || lia || reflexivity).
  - destruct (network_factor_cases (total_nodes c)) as [[H ->] | [[H ->] | [H ->]]];
      split; intros; (discriminate || lia || reflexivity).
  - destruct (ratio_factor_cases (active_ratio c)) as [[H ->] | [(H & H' & ->) | [H ->]]];
      split; intros; try discriminate; try reflexivity; lra.
  - destruct (ratio_factor_cases (active_ratio c)) as [[H ->] | [(H & H' & ->) | [H ->]]];
      split; intros; try discriminate; try reflexivity; lra.
  - destruct (ratio_factor_cases (active_ratio c)) as [[H ->] | [(H & H' & ->) | [H ->]]];
      split; intros; try discriminate; try reflexivity; lra.
Qed.

(** ** The percentage follows the change *)

Lemma percentage_sign (tc prev : Z) :
  0 < prev ->
  let pc := (inject_Z tc / inject_Z prev * 100)%Q in
  ((0 < pc)%Q <-> 0 < tc) /\ ((pc < 0)%Q <-> tc < 0) /\ ((pc == 0)%Q <-> tc = 0).
Proof.
  intros Hprev.
  destruct prev as [| pp | pp]; try lia.
  unfold Qlt, Qeq, Qdiv, Qmult, Qinv, inject_Z; cbn.
  repeat split; intros; lia.
Qed.

Lemma percentage_abs_monotone (a b prev : Z) :
  0 < prev ->
  Z.abs a <= Z.abs b ->
  (Qabs (inject_Z a / inject_Z prev * 100) <= Qabs (inject_Z b / inject_Z prev * 100))%Q.
Proof.
  intros Hprev Hab.
  destruct prev as [| pp | pp]; try lia.
  unfold Qle, Qabs, Qdiv, Qmult, Qinv, inject_Z; cbn.
  apply Z.mul_le_mono_nonneg_r; [lia |].
  rewrite !Z.abs_mul. cbn. lia.
Qed.

(** C10. For a window with both snapshots, when previous.tor_nodes > 0 the
    percentage_change is positive, negative or zero exactly when tor_change
    is, so a rising tor_change never comes with a falling percentage nor a
    falling one with a rising percentage; when previous.tor_nodes = 0 the
    percentage_change is 0 whatever tor_change is. *)
Theorem percentage_sign_agrees (c p : snapshot) :
  exists r : TorSignal.t,
    calculate_high_confidence_signal (window (Some c) (Some p)) = Ok r /\
    let tc := TorSignal.tor_change r in
    let pc := TorSignal.percentage_change r in
    tc = tor_nodes c - tor_nodes p /\
    (0 < tor_nodes p ->
       ((0 < pc)%Q <-> 0 < tc) /\ ((pc < 0)%Q <-> tc < 0) /\ ((pc == 0)%Q <-> tc = 0)) /\
    (tor_nodes p = 0 -> pc = 0%Q) /\
    (0 < tor_nodes p ->
       (50 < tc -> ~ (pc < -5)%Q) /\ (tc < -50 -> ~ (5 < pc)%Q) /\
       (25 < tc -> ~ (pc < -2.5)%Q) /\ (tc < -25 -> ~ (2.5 < pc)%Q)).
Proof.
  eexists; split; [apply calculate_populated |].
  cbn [populated_result TorSignal.tor_change TorSignal.percentage_change].
  cbv zeta.
  split; [reflexivity |].
  split; [| split].
  - intros Hpos. destruct (Z.gtb_spec (tor_nodes p) 0); [| lia].
    apply percentage_sign, Hpos.
  - intros ->. reflexivity.
  - intros Hpos. destruct (Z.gtb_spec (tor_nodes p) 0); [| lia].
    destruct (percentage_sign (tor_nodes c - tor_nodes p) (tor_nodes p) Hpos)
      as (Hp & Hn & _).
    cbv zeta in Hp, Hn.
    set (pc := (inject_Z (tor_nodes c - tor_nodes p) / inject_Z (tor_nodes p) * 100)%Q) in *.
    repeat split; intros Htc Hpc.
    + assert (pc < 0)%Q as H0 by lra. apply Hn in H0. lia.
    + assert (0 < pc)%Q as H0 by lra. apply Hp in H0. lia.
    + assert (pc < 0)%Q as H0 by lra. apply Hn in H0. lia.
    + assert (0 < pc)%Q as H0 by lra. apply Hp in H0. lia.
Qed.

(** ** Monotonicity of the confidence *)

Lemma ratio_factor_proper (r1 r2 : Q) :
  (r1 == r2)%Q -> ratio_factor r1 = ratio_factor r2.
Proof.
  intros Heq.
  destruct (ratio_factor_cases r1) as [[H1 ->] | [(H1 & H1' & ->) | [H1 ->]]];
  destruct (ratio_factor_cases r2) as [[H2 ->] | [(H2 & H2' & ->) | [H2 ->]]];
    try reflexivity; exfalso; lra.
Qed.

(** The confidence of a list of four tags never decreases when the first
    two tags move up (SMALL to MEDIUM to LARGE) and the last two stay. *)
Lemma overall_confidence_monotone (tc1 tc2 : Z) (pc1 pc2 : Q) (f3 f4 : string) :
  Z.abs tc2 <= Z.abs tc1 ->
  (Qabs pc2 <= Qabs pc1)%Q ->
  In f3 ["LARGE_NETWORK"; "MEDIUM_NETWORK"; "SMALL_NETWORK"] ->
  In f4 ["HEALTHY_ACTIVE_RATIO"; "MODERATE_ACTIVE_RATIO"; "POOR_ACTIVE_RATIO"] ->
  exists n1 n2 : nat,
    Spec.rank (overall_confidence
                 [tor_change_factor tc1; percentage_factor pc1; f3; f4]) = Some n1 /\
    Spec.rank (overall_confidence
                 [tor_change_factor tc2; percentage_factor pc2; f3; f4]) = Some n2 /\
    (n2 <= n1)%nat.
Proof.
  intros Htc Hpc H3 H4.
  cbn [In] in H3, H4.
  destruct (tor_change_factor_cases tc1) as [[A1 ->] | [[A1 ->] | [A1 ->]]];
  destruct (tor_change_factor_cases tc2) as [[A2 ->] | [[A2 ->] | [A2 ->]]];
    try (exfalso; lia); clear A1 A2 Htc;
  destruct (percentage_factor_cases pc1) as [[B1 ->] | [(B1 & B1' & ->) | [B1 ->]]];
  destruct (percentage_factor_cases pc2) as [[B2 ->] | [(B2 & B2' & ->) | [B2 ->]]];
    try (exfalso; lra); clear Hpc;
  destruct H3 as [<- | [<- | [<- | []]]];
  destruct H4 as [<- | [<- | [<- | []]]];
  vm_compute; do 2 eexists; (split; [reflexivity | split; [reflexivity | lia]]).
Qed.

(** C7. Two windows with both snapshots that agree on previous.tor_nodes
    (positive), on current.total_nodes and on current.active_ratio: the one
    whose absolute tor_change is at least the other's has a confidence at
    least the other's, for the order LOW < MEDIUM < HIGH. *)
Theorem confidence_monotone_in_tor_change (c1 p1 c2 p2 : snapshot) :
  tor_nodes p1 = tor_nodes p2 ->
  0 < tor_nodes p1 ->
  total_nodes c1 = total_nodes c2 ->
  (active_ratio c1 == active_ratio c2)%Q ->
  Z.abs (tor_nodes c2 - tor_nodes p2) <= Z.abs (tor_nodes c1 - tor_nodes p1) ->
  exists (r1 r2 : TorSignal.t) (n1 n2 : nat),
    calculate_high_confidence_signal (window (Some c1) (Some p1)) = Ok r1 /\
    calculate_high_confidence_signal (window (Some c2) (Some p2)) = Ok r2 /\
    Spec.rank (TorSignal.confidence r1) = Some n1 /\
    Spec.rank (TorSignal.confidence r2) = Some n2 /\
    (n2 <= n1)%nat.
Proof.
  intros Hprev Hpos Htotal Hratio Habs.
  rewrite <- Hprev in Habs.
  pose proof (percentage_abs_monotone _ _ _ Hpos Habs) as Hpc.
  destruct (overall_confidence_monotone _ _ _ _ _ _ Habs Hpc
              (network_factor_in (total_nodes c1)) (ratio_factor_in (active_ratio c1)))
    as (n1 & n2 & Hn1 & Hn2 & Hle).
  do 2 eexists. exists n1, n2.
  split; [apply calculate_populated |].
  split; [apply calculate_populated |].
  cbn [populated_result TorSignal.confidence].
  rewrite <- Hprev, <- Htotal, <- (ratio_factor_proper _ _ Hratio).
  destruct (Z.gtb_spec (tor_nodes p1) 0); [| lia].
  auto.
Qed.

Lemma confidence_monotone_in_tor_change_witness :
  exists (r1 r2 : TorSignal.t) (n1 n2 : nat),
    calculate_high_confidence_signal (window (Some scenario_cur) (Some scenario_prev)) = Ok r1 /\
    calculate_high_confidence_signal
      (window (Some scenario_cur_small) (Some scenario_prev)) = Ok r2 /\
    Spec.rank (TorSignal.confidence r1) = Some n1 /\
    Spec.rank (TorSignal.confidence r2) = Some n2 /\
    (n2 <= n1)%nat.
Proof.
  apply (confidence_monotone_in_tor_change
           scenario_cur scenario_prev scenario_cur_small scenario_prev).
  - reflexivity.
  - reflexivity.
  - reflexivity.
  - reflexivity.
  - vm_compute. discriminate.
Defined.

(** ** The persisted file *)

Lemma parse_value_token (v : pyval) : parse_value (token_of_value v) = Some v.
Proof. destruct v; reflexivity. Qed.

(** Reading back a complete document gives the dict that was dumped. *)
Lemma json_load_document (e : env) (a : analyzer) :
  json_load (document e a) =
  Some (JObject (<["last_updated" := PStr (now e)]>
                   (<["previous_data" := previous_data a]>
                      (<["current_data" := current_data a]> ∅)))).
Proof.
  unfold document, json_dump, json_load; cbn [dump_members app parse_members].
  rewrite !parse_value_token. reflexivity.
Qed.

(** A document cut short never parses. *)
Lemma json_load_truncated (e : env) (a : analyzer) (n : nat) :
  (n < length (document e a))%nat ->
  json_load (firstn n (document e a)) = None.
Proof.
  unfold document, json_dump; cbn [dump_members app length].
  intros Hn.
  do 13 (destruct n as [| n];
         [ cbn [firstn json_load parse_members fmap option_fmap option_map];
           rewrite ?parse_value_token; try reflexivity;
           destruct (current_data a), (previous_data a); reflexivity |]).
  lia.
Qed.

(** C9. [load_node_data] never raises and touches neither the file nor the
    error reports.  With the file absent, unreadable, not parseable as JSON,
    or parseable but not a JSON object, both attributes are [None]; with a
    readable file holding a JSON object they are the object's current_data
    and previous_data ([None] for a key the object lacks). *)
Theorem load_never_fails (e : env) (s : state) :
  exists s' : state,
    load_node_data e s = (Ok tt, s') /\
    disk s' = disk s /\ reports s' = reports s /\ requests s' = requests s /\
    (disk s = Missing -> self s' = window None None) /\
    (read_fails e = true -> self s' = window None None) /\
    (forall content, disk s = Present content -> json_load content = None ->
       self s' = window None None) /\
    (forall content v, disk s = Present content -> json_load content = Some (JValue v) ->
       self s' = window None None) /\
    (forall content members,
       disk s = Present content -> read_fails e = false ->
       json_load content = Some (JObject members) ->
       self s' = {| current_data := default PNone (members !! "current_data");
                    previous_data := default PNone (members !! "previous_data") |}).
Proof.
  unfold load_node_data, try_except, bind, get, read_json.
  destruct (disk s) as [| content] eqn:Hdisk.
  { eexists; split; [reflexivity |]. cbn.
    repeat split; auto; intros; congruence. }
  destruct (read_fails e) eqn:Hread.
  { eexists; split; [reflexivity |]. cbn.
    repeat split; auto; intros; congruence. }
  destruct (json_load content) as [[members | v] |] eqn:Hload;
    (eexists; split; [reflexivity |]); cbn;
    repeat split; auto; intros; simplify_eq; reflexivity.
Qed.

(** ** Saving, fetching, rotating *)

Lemma save_node_data_spec (e : env) (s : state) :
  exists s' : state,
    save_node_data e s = (Ok tt, s') /\
    self s' = self s /\ requests s' = requests s /\
    match write e with
    | WriteCompletes =>
        disk s' = Present (document e (self s)) /\ reports s' = reports s
    | WriteFailsAfter n =>
        disk s' = Present (firstn n (document e (self s))) /\
        reports s' = (reports s ++ [ErrorSaving OSError])%list
    | OpenFails =>
        disk s' = disk s /\ reports s' = (reports s ++ [ErrorSaving OSError])%list
    end.
Proof.
  unfold save_node_data, try_except, bind, get, write_json, document.
  destruct (write e); eexists; (split; [reflexivity |]); cbn; auto.
Qed.

Lemma fetch_node_data_spec (e : env) (s : state) :
  exists (fetched : option snapshot) (s1 : state),
    fetch_node_data e s = (Ok fetched, s1) /\
    self s1 = self s /\ disk s1 = disk s /\ requests s1 = S (requests s) /\
    match http e with
    | RequestFails err =>
        fetched = None /\ reports s1 = (reports s ++ [ErrorFetching err])%list
    | Response data =>
        reports s1 = reports s /\
        fetched =
          Some {| timestamp := now e;
                  total_nodes := p_total_nodes data;
                  active_nodes := fst (count_nodes (p_nodes data));
                  tor_nodes := snd (count_nodes (p_nodes data));
                  tor_percentage :=
                    if p_total_nodes data >? 0
                    then (inject_Z (snd (count_nodes (p_nodes data))) /
                          inject_Z (p_total_nodes data) * 100)%Q
                    else 0%Q;
                  active_ratio :=
                    if p_total_nodes data >? 0
                    then (inject_Z (fst (count_nodes (p_nodes data))) /
                          inject_Z (p_total_nodes data))%Q
                    else 0%Q |}
    end.
Proof.
  destruct (http e) as [err | data] eqn:Hhttp;
    cbv beta iota zeta delta [fetch_node_data try_except bind http_get count_request
                              modify lift ret raise st_error];
    rewrite Hhttp; cbv beta iota zeta.
  { do 2 eexists; split; [reflexivity |]; cbn; auto. }
  destruct (count_nodes (p_nodes data)) as [active tor].
  unfold py_truediv.
  destruct (Z.gtb_spec (p_total_nodes data) 0) as [Hpos | Hle].
  - destruct (Z.eqb_spec (p_total_nodes data) 0) as [H0 | _]; [lia |].
    do 2 eexists; split; [reflexivity |]; cbn; auto.
  - do 2 eexists; split; [reflexivity |]; cbn; auto.
Qed.

Lemma update_node_data_spec (e : env) (s : state) :
  exists (fetched : option snapshot) (s1 s' : state) (ok : bool),
    fetch_node_data e s = (Ok fetched, s1) /\
    requests s1 = S (requests s) /\
    update_node_data e s = (Ok ok, s') /\
    requests s' = S (requests s) /\
    match fetched with
    | None =>
        ok = false /\ self s' = self s /\ disk s' = disk s
    | Some d =>
        ok = true /\
        self s' = {| current_data := PSnapshot d;
                     previous_data := current_data (self s) |}
    end.
Proof.
  destruct (fetch_node_data_spec e s) as (fetched & s1 & Hfetch & Hself & Hdisk & Hreq & _).
  unfold update_node_data, bind. rewrite Hfetch.
  destruct fetched as [d |].
  - unfold get, set_previous_data, set_current_data, modify; cbn.
    match goal with |- context [save_node_data e ?st] =>
      destruct (save_node_data_spec e st) as (s' & Hsave & Hself' & Hreq' & _)
    end.
    exists (Some d), s1, s', true. rewrite Hsave.
    repeat split; auto.
    + rewrite Hreq'. exact Hreq.
    + rewrite Hself'. cbn. rewrite Hself. reflexivity.
  - exists None, s1, s1, false. unfold ret. repeat split; auto.
Qed.

(** C4. [update_node_data] issues exactly one request.  When the fetch
    gives no snapshot it returns False and leaves both attributes (and the
    file) as they were; when the fetch gives a snapshot it returns True,
    current_data is the new snapshot and previous_data is what current_data
    was before the call, whatever previous_data held and whatever happens to
    the write. *)
Theorem update_node_data_rotates (e : env) (s : state) :
  exists (fetched : option snapshot) (s1 s' : state) (ok : bool),
    fetch_node_data e s = (Ok fetched, s1) /\
    requests s1 = S (requests s) /\
    update_node_data e s = (Ok ok, s') /\
    requests s' = S (requests s) /\
    match fetched with
    | None =>
        ok = false /\ self s' = self s /\ disk s' = disk s
    | Some d =>
        ok = true /\
        self s' = {| current_data := PSnapshot d;
                     previous_data := current_data (self s) |}
    end.
Proof. apply update_node_data_spec. Qed.

Lemma calculate_total (c p : option snapshot) :
  exists r : TorSignal.t, calculate_high_confidence_signal (window c p) = Ok r.
Proof.
  destruct c as [c |], p as [p |]; try (eexists; reflexivity).
  eexists; apply calculate_populated.
Qed.

(** C8. A payload with total_nodes = 0 gives a snapshot whose tor_percentage
    and active_ratio are 0, and a window whose previous snapshot has
    tor_nodes = 0 gives percentage_change = 0.  No division raises: every
    payload yields a snapshot with nothing reported, and every window yields
    a result. *)
Theorem zero_denominators_give_zero :
  (forall (e : env) (s : state) (data : payload),
     http e = Response data -> p_total_nodes data = 0 ->
     exists (d : snapshot) (s' : state),
       fetch_node_data e s = (Ok (Some d), s') /\ reports s' = reports s /\
       tor_percentage d = 0%Q /\ active_ratio d = 0%Q) /\
  (forall c p : snapshot,
     tor_nodes p = 0 ->
     exists r : TorSignal.t,
       calculate_high_confidence_signal (window (Some c) (Some p)) = Ok r /\
       TorSignal.percentage_change r = 0%Q) /\
  (forall (e : env) (s : state) (data : payload),
     http e = Response data ->
     exists (d : snapshot) (s' : state),
       fetch_node_data e s = (Ok (Some d), s') /\ reports s' = reports s) /\
  (forall c p : option snapshot,
     exists r : TorSignal.t, calculate_high_confidence_signal (window c p) = Ok r).
Proof.
  split; [| split; [| split]].
  - intros e s data Hhttp Hzero.
    destruct (fetch_node_data_spec e s) as (fetched & s1 & Hfetch & _ & _ & _ & Hout).
    rewrite Hhttp in Hout. destruct Hout as [Hrep ->].
    do 2 eexists. split; [exact Hfetch |].
    cbn [tor_percentage active_ratio]. rewrite Hzero. auto.
  - intros c p Hzero. eexists; split; [apply calculate_populated |].
    cbn [populated_result TorSignal.percentage_change]. rewrite Hzero. reflexivity.
  - intros e s data Hhttp.
    destruct (fetch_node_data_spec e s) as (fetched & s1 & Hfetch & _ & _ & _ & Hout).
    rewrite Hhttp in Hout. destruct Hout as [Hrep ->].
    do 2 eexists. split; [exact Hfetch | exact Hrep].
  - apply calculate_total.
Qed.

(** C6, as the code has it.  [save_node_data] never raises and leaves the
    attributes alone: a failure is reported with [st.error].  It writes the
    file in place: a completed write leaves a document that parses back to
    the saved attributes, a failed [open] leaves the file as it was, and a
    write that fails before the last chunk leaves a truncated file that does
    not parse.  A failed save does not undo the rotation: after a fetch that
    gave a snapshot, [update_node_data] returns True with the rotated
    attributes whatever the write did. *)
Theorem save_reports_failure_keeps_rotation (e : env) (s : state) :
  (exists s' : state,
     save_node_data e s = (Ok tt, s') /\
     self s' = self s /\
     match write e with
     | WriteCompletes =>
         disk s' = Present (document e (self s)) /\ reports s' = reports s /\
         exists members,
           json_load (document e (self s)) = Some (JObject members) /\
           members !! "current_data" = Some (current_data (self s)) /\
           members !! "previous_data" = Some (previous_data (self s))
     | WriteFailsAfter n =>
         disk s' = Present (firstn n (document e (self s))) /\
         reports s' = (reports s ++ [ErrorSaving OSError])%list /\
         ((n < length (document e (self s)))%nat ->
          json_load (firstn n (document e (self s))) = None)
     | OpenFails =>
         disk s' = disk s /\ reports s' = (reports s ++ [ErrorSaving OSError])%list
     end) /\
  (forall (d : snapshot) (s1 : state),
     fetch_node_data e s = (Ok (Some d), s1) ->
     exists s' : state,
       update_node_data e s = (Ok true, s') /\
       self s' = {| current_data := PSnapshot d;
                    previous_data := current_data (self s) |}).
Proof.
  split.
  - destruct (save_node_data_spec e s) as (s' & Hsave & Hself & _ & Hout).
    exists s'. split; [exact Hsave |]. split; [exact Hself |].
    destruct (write e) as [| n |].
    + exact Hout.
    + destruct Hout as [Hdisk Hrep]. repeat split; auto.
      apply json_load_truncated.
    + destruct Hout as [Hdisk Hrep]. repeat split; auto.
      eexists. split; [apply json_load_document |].
      split; simplify_map_eq; reflexivity.
  - intros d s1 Hfetch.
    destruct (update_node_data_spec e s) as (fetched & s1' & s' & ok & Hf & _ & Hup & _ & Hout).
    rewrite Hfetch in Hf. injection Hf as <- <-.
    destruct Hout as [-> Hself]. exists s'. auto.
Qed.

(** ** Sample runs *)

(** Scenario A of the specification: rule 1, STRONG SELL. *)
Example scenario_A :
  calculate_high_confidence_signal (window (Some scenario_cur) (Some scenario_prev)) =
  Ok {| TorSignal.current_tor := 1060;
        TorSignal.previous_tor := 1000;
        TorSignal.tor_change := 60;
        TorSignal.percentage_change := 6000 # 1000;
        TorSignal.signal := "STRONG SELL";
        TorSignal.confidence := "HIGH";
        TorSignal.bias := "HIGHLY BEARISH";
        TorSignal.reasoning := LargeIncrease 60 (6000 # 1000);
        TorSignal.confidence_factors :=
          Some ["LARGE_TOR_CHANGE"; "LARGE_PERCENTAGE_CHANGE"; "MEDIUM_NETWORK";
                "HEALTHY_ACTIVE_RATIO"];
        TorSignal.total_nodes := Some 9100;
        TorSignal.active_ratio := Some 0.8%Q |}.
Proof. reflexivity. Qed.

(** Scenario D: an unchanged total is NETWORK SHRINKING. *)
Example scenario_D :
  calculate_network_signal (window (Some scenario_prev) (Some scenario_prev)) =
  Ok {| NetSignal.current_total := 9000;
        NetSignal.previous_total := 9000;
        NetSignal.total_change := 0;
        NetSignal.network_signal := "NETWORK SHRINKING" |}.
Proof. reflexivity. Qed.

(** The sample payload: three active nodes, two Tor nodes out of four. *)
Example fetch_sample :
  fst (fetch_node_data (sample_env (Response sample_payload) WriteCompletes) sample_state) =
  Ok (Some {| timestamp := "2024-01-01T00:20:00";
              total_nodes := 4;
              active_nodes := 3;
              tor_nodes := 2;
              tor_percentage := 200 # 4;
              active_ratio := 3 # 4 |}).
Proof. reflexivity. Qed.

(** C6 as stated fails: the file of [sample_state] parses before the save; a
    write that breaks off after five chunks leaves a file that does not,
    while [save_node_data] returns normally. *)
Lemma save_leaves_truncated_file :
  let e := sample_env (RequestFails RequestException) (WriteFailsAfter 5) in
  (exists content,
     disk sample_state = Present content /\ json_load content <> None) /\
  fst (save_node_data e sample_state) = Ok tt /\
  disk (snd (save_node_data e sample_state)) =
    Present [TLBrace; TStr "current_data"; TColon; TSnapshot scenario_cur; TComma] /\
  json_load [TLBrace; TStr "current_data"; TColon; TSnapshot scenario_cur; TComma] = None.
Proof.
  cbv zeta. split; [| split; [| split]]; try reflexivity.
  eexists. split; [reflexivity |].
  rewrite json_load_document. discriminate.
Qed.

Lemma save_reports_failure_keeps_rotation_witness :
  let e := sample_env (Response sample_payload) (WriteFailsAfter 5) in
  exists (d : snapshot) (s' : state),
    fst (fetch_node_data e sample_state) = Ok (Some d) /\
    update_node_data e sample_state = (Ok true, s') /\
    self s' = {| current_data := PSnapshot d;
                 previous_data := PSnapshot scenario_cur |}.
Proof.
  cbv zeta. eexists.
  destruct (proj2 (save_reports_failure_keeps_rotation
                     (sample_env (Response sample_payload) (WriteFailsAfter 5))
                     sample_state) _ _ eq_refl) as (s' & Hup & Hself).
  exists s'. split; [reflexivity |]. split; [exact Hup | exact Hself].
Defined.

Lemma zero_denominators_give_zero_witness :
  exists (d : snapshot) (s' : state),
    fetch_node_data (sample_env (Response empty_payload) WriteCompletes) sample_state =
      (Ok (Some d), s') /\
    reports s' = reports sample_state /\
    tor_percentage d = 0%Q /\ active_ratio d = 0%Q.
Proof.
  apply (proj1 zero_denominators_give_zero
           (sample_env (Response empty_payload) WriteCompletes) sample_state empty_payload);
    reflexivity.
Defined.

Lemma load_never_fails_witness :
  exists s' : state,
    load_node_data (sample_env (RequestFails RequestException) WriteCompletes)
                   {| self := window None None; disk := disk sample_state;
                      reports := []; requests := 0 |} = (Ok tt, s') /\
    self s' = window (Some scenario_prev) None.
Proof.
  destruct (load_never_fails (sample_env (RequestFails RequestException) WriteCompletes)
              {| self := window None None; disk := disk sample_state;
                 reports := []; requests := 0 |})
    as (s' & Hload & _ & _ & _ & _ & _ & _ & _ & Hobject).
  exists s'. split; [exact Hload |].
  rewrite (Hobject _ _ eq_refl eq_refl (json_load_document _ _)).
  reflexivity.
Defined.

(** * Further properties of the code *)

(** ** The verdict in closed form *)

(** The signal of the [if]/[elif] chain, rule by rule. *)
Lemma decide_signal_verdict (tc : Z) (pc : Q) (conf : string) :
  let sg := fst (fst (decide_signal tc pc conf)) in
  let mh := conf = "MEDIUM" \/ conf = "HIGH" in
  (sg = "STRONG SELL" <-> 50 < tc /\ (5 < pc)%Q /\ conf = "HIGH") /\
  (sg = "STRONG BUY" <-> tc < -50 /\ (pc < -5)%Q /\ conf = "HIGH") /\
  (sg = "STRONG SELL" \/ sg = "SELL" <-> 25 < tc /\ (2.5 < pc)%Q /\ mh) /\
  (sg = "STRONG BUY" \/ sg = "BUY" <-> tc < -25 /\ (pc < -2.5)%Q /\ mh) /\
  (sg = "STRONG SELL" \/ sg = "SELL" \/ sg = "SLIGHT SELL" <-> 10 < tc) /\
  (sg = "STRONG BUY" \/ sg = "BUY" \/ sg = "SLIGHT BUY" <-> tc < -10) /\
  (sg = "HOLD" <-> -10 <= tc <= 10).
Proof.
  pose proof (rule_up_reflect tc pc 50 5 _ _ (String.eqb_eq conf "HIGH")) as R1.
  pose proof (rule_down_reflect tc pc (-50) (-5) _ _ (String.eqb_eq conf "HIGH")) as R2.
  pose proof (rule_up_reflect tc pc 25 2.5 _ _ (medium_or_high_true conf)) as R3.
  pose proof (rule_down_reflect tc pc (-25) (-2.5) _ _ (medium_or_high_true conf)) as R4.
  unfold decide_signal.
  destruct (_ && _ && _) eqn:H1 in |- *;
    [| destruct (_ && _ && _) eqn:H2 in |- *;
       [| destruct (_ && _ && _) eqn:H3 in |- *;
          [| destruct (_ && _ && _) eqn:H4 in |- *;
             [| destruct (Z.gtb_spec tc 10) as [H5 | H5];
                [| destruct (Z.ltb_spec tc (-10)) as [H6 | H6]]]]]];
    cbn [fst snd]; cbv zeta;
    try (apply R1 in H1); try (apply R2 in H2); try (apply R3 in H3); try (apply R4 in H4);
    repeat match goal with
           | H : _ = false, R : _ = true <-> _ |- _ =>
               rewrite <- not_true_iff_false, R in H; clear R
           end;
    repeat match goal with |- _ /\ _ => split end;
    split; intros Hi;
    repeat match goal with
           | H : _ \/ _ |- _ => destruct H
           | H : _ /\ _ |- _ => destruct H
           end;
    try discriminate; try lia; try lra; try tauto; auto 6;
    (split; [lia | split; [lra | auto]]).
Qed.

Lemma Qabs_above (x b : Q) : (b < x)%Q -> (b < Qabs x)%Q.
Proof. intros H. eapply Qlt_le_trans; [exact H | apply Qle_Qabs]. Qed.

Lemma Qabs_below (x b : Q) : (x < - b)%Q -> (b < Qabs x)%Q.
Proof.
  intros H. rewrite <- Qabs_opp. apply Qabs_above.
  apply Qopp_lt_compat in H. rewrite Qopp_involutive in H. exact H.
Qed.

(** With a large change in both measures the confidence is HIGH exactly when
    the network is large or the active ratio healthy. *)
Lemma high_confidence_iff (tc : Z) (pc : Q) (total : Z) (ratio : Q) :
  50 < Z.abs tc -> (5 < Qabs pc)%Q ->
  (overall_confidence [ tor_change_factor tc; percentage_factor pc;
                        network_factor total; ratio_factor ratio ] = "HIGH" <->
   10000 < total \/ ((0.7 <= ratio)%Q /\ (ratio <= 0.9)%Q)).
Proof.
  intros Htc Hpc.
  destruct (tor_change_factor_cases tc) as [[A ->] | [[A ->] | [A ->]]]; try lia.
  destruct (percentage_factor_cases pc) as [[B ->] | [(B & B' & ->) | [B ->]]]; try lra.
  destruct (network_factor_cases total) as [[C ->] | [[C ->] | [C ->]]];
  destruct (ratio_factor_cases ratio) as [[D ->] | [(D & D' & ->) | [D ->]]];
    vm_compute overall_confidence; split; intros Hi;
    try discriminate; try reflexivity; try (left; lia); try (right; lra);
    exfalso; destruct Hi as [Hi | Hi]; try lia; try lra; tauto.
Qed.

(** With at least a moderate change in both measures the confidence is
    MEDIUM or HIGH exactly when the network is not small or the active ratio
    not poor. *)
Lemma medium_confidence_iff (tc : Z) (pc : Q) (total : Z) (ratio : Q) :
  25 < Z.abs tc -> (2.5 < Qabs pc)%Q ->
  let conf := overall_confidence [ tor_change_factor tc; percentage_factor pc;
                                   network_factor total; ratio_factor ratio ] in
  (conf = "MEDIUM" \/ conf = "HIGH" <->
   8000 < total \/ ((0.6 <= ratio)%Q /\ (ratio <= 0.95)%Q)).
Proof.
  intros Htc Hpc.
  destruct (tor_change_factor_cases tc) as [[A ->] | [[A ->] | [A ->]]]; try lia;
  (destruct (percentage_factor_cases pc) as [[B ->] | [(B & B' & ->) | [B ->]]]; try lra);
  destruct (network_factor_cases total) as [[C ->] | [[C ->] | [C ->]]];
  destruct (ratio_factor_cases ratio) as [[D ->] | [(D & D' & ->) | [D ->]]];
    vm_compute overall_confidence; cbv zeta; split; intros Hi;
    try (left; reflexivity); try (right; reflexivity);
    try (left; lia); try (right; lra);
    exfalso; destruct Hi as [Hi | Hi]; try discriminate; try lia; try lra; tauto.
Qed.

Ltac populated_fields :=
  eexists; split; [apply calculate_populated |];
  cbn [populated_result TorSignal.tor_change TorSignal.percentage_change
       TorSignal.confidence TorSignal.signal TorSignal.bias TorSignal.reasoning
       TorSignal.confidence_factors TorSignal.total_nodes TorSignal.active_ratio
       TorSignal.current_tor TorSignal.previous_tor];
  cbv zeta.

(** X1. For a window with both snapshots the direction of the signal is the
    direction of tor_change alone: a SELL of any strength exactly when
    tor_change > 10, a BUY of any strength exactly when tor_change < -10,
    HOLD exactly when -10 <= tor_change <= 10. *)
Theorem signal_follows_tor_change (c p : snapshot) :
  exists r : TorSignal.t,
    calculate_high_confidence_signal (window (Some c) (Some p)) = Ok r /\
    let tc := tor_nodes c - tor_nodes p in
    let sg := TorSignal.signal r in
    (sg = "STRONG SELL" \/ sg = "SELL" \/ sg = "SLIGHT SELL" <-> 10 < tc) /\
    (sg = "STRONG BUY" \/ sg = "BUY" \/ sg = "SLIGHT BUY" <-> tc < -10) /\
    (sg = "HOLD" <-> -10 <= tc <= 10).
Proof.
  populated_fields.
  apply decide_signal_verdict.
Qed.

(** X2. For a window with both snapshots the signal is STRONG SELL exactly
    when tor_change > 50, percentage_change > 5 and the network is large
    (current.total_nodes > 10000) or the active ratio healthy (0.7 to 0.9);
    it is STRONG BUY exactly when tor_change < -50, percentage_change < -5
    and the same condition on network or ratio holds. *)
Theorem strong_signal_conditions (c p : snapshot) :
  exists r : TorSignal.t,
    calculate_high_confidence_signal (window (Some c) (Some p)) = Ok r /\
    let tc := tor_nodes c - tor_nodes p in
    let pc := TorSignal.percentage_change r in
    let supported :=
      10000 < total_nodes c \/
      ((0.7 <= active_ratio c)%Q /\ (active_ratio c <= 0.9)%Q) in
    (TorSignal.signal r = "STRONG SELL" <-> 50 < tc /\ (5 < pc)%Q /\ supported) /\
    (TorSignal.signal r = "STRONG BUY" <-> tc < -50 /\ (pc < -5)%Q /\ supported).
Proof.
  populated_fields.
  set (tc := tor_nodes c - tor_nodes p).
  set (pc := if tor_nodes p >? 0 then _ else _).
  destruct (decide_signal_verdict tc pc
              (overall_confidence [ tor_change_factor tc; percentage_factor pc;
                                    network_factor (total_nodes c);
                                    ratio_factor (active_ratio c) ]))
    as (Hss & Hsb & _).
  cbv zeta in Hss, Hsb. rewrite Hss, Hsb.
  pose proof (high_confidence_iff tc pc (total_nodes c) (active_ratio c)) as Hconf.
  clearbody pc. clearbody tc.
  split; split; intros (Htc & Hpc & Hc); (split; [exact Htc | split; [exact Hpc |]]);
    apply Hconf; auto using Qabs_above, Qabs_below; lia.
Qed.

(** X3. For a window with both snapshots the signal is SELL or STRONG SELL
    exactly when tor_change > 25, percentage_change > 2.5 and the network is
    not small (current.total_nodes > 8000) or the active ratio not poor (0.6
    to 0.95); it is BUY or STRONG BUY exactly when tor_change < -25,
    percentage_change < -2.5 and the same condition holds. *)
Theorem moderate_signal_conditions (c p : snapshot) :
  exists r : TorSignal.t,
    calculate_high_confidence_signal (window (Some c) (Some p)) = Ok r /\
    let tc := tor_nodes c - tor_nodes p in
    let pc := TorSignal.percentage_change r in
    let sg := TorSignal.signal r in
    let supported :=
      8000 < total_nodes c \/
      ((0.6 <= active_ratio c)%Q /\ (active_ratio c <= 0.95)%Q) in
    (sg = "STRONG SELL" \/ sg = "SELL" <-> 25 < tc /\ (2.5 < pc)%Q /\ supported) /\
    (sg = "STRONG BUY" \/ sg = "BUY" <-> tc < -25 /\ (pc < -2.5)%Q /\ supported).
Proof.
  populated_fields.
  set (tc := tor_nodes c - tor_nodes p).
  set (pc := if tor_nodes p >? 0 then _ else _).
  destruct (decide_signal_verdict tc pc
              (overall_confidence [ tor_change_factor tc; percentage_factor pc;
                                    network_factor (total_nodes c);
                                    ratio_factor (active_ratio c) ]))
    as (_ & _ & Hs & Hb & _).
  cbv zeta in Hs, Hb. rewrite Hs, Hb.
  pose proof (medium_confidence_iff tc pc (total_nodes c) (active_ratio c)) as Hconf.
  cbv zeta in Hconf.
  clearbody pc. clearbody tc.
  split; split; intros (Htc & Hpc & Hc); (split; [exact Htc | split; [exact Hpc |]]);
    apply Hconf; auto using Qabs_above, Qabs_below; lia.
Qed.

(** X4. When previous.tor_nodes is 0 (or negative) the percentage is 0, so
    whatever the change and the confidence the signal is only SLIGHT SELL,
    SLIGHT BUY or HOLD. *)
Theorem no_previous_tor_only_slight (c p : snapshot) :
  tor_nodes p <= 0 ->
  exists r : TorSignal.t,
    calculate_high_confidence_signal (window (Some c) (Some p)) = Ok r /\
    TorSignal.percentage_change r = 0%Q /\
    (TorSignal.signal r = "SLIGHT SELL" \/ TorSignal.signal r = "SLIGHT BUY" \/
     TorSignal.signal r = "HOLD").
Proof.
  intros Hprev. populated_fields.
  destruct (Z.gtb_spec (tor_nodes p) 0) as [Hpos | _]; [lia |].
  split; [reflexivity |].
  set (tc := tor_nodes c - tor_nodes p). clearbody tc.
  set (conf := overall_confidence _). clearbody conf.
  unfold decide_signal.
  replace (Qgtb 0 5) with false by reflexivity.
  replace (Qltb 0 (-5)) with false by reflexivity.
  replace (Qgtb 0 2.5) with false by reflexivity.
  replace (Qltb 0 (-2.5)) with false by reflexivity.
  rewrite !andb_false_r; cbn [andb].
  destruct (tc >? 10); [auto |]. destruct (tc <? -10); auto.
Qed.

(** X5. For a window with both snapshots a STRONG signal always comes with
    confidence HIGH and a plain SELL or BUY with MEDIUM or HIGH; with
    confidence LOW the signal is only SLIGHT SELL, SLIGHT BUY or HOLD. *)
Theorem verdict_needs_confidence (c p : snapshot) :
  exists r : TorSignal.t,
    calculate_high_confidence_signal (window (Some c) (Some p)) = Ok r /\
    let sg := TorSignal.signal r in
    let conf := TorSignal.confidence r in
    (sg = "STRONG SELL" \/ sg = "STRONG BUY" -> conf = "HIGH") /\
    (sg = "SELL" \/ sg = "BUY" -> conf = "MEDIUM" \/ conf = "HIGH") /\
    (conf = "LOW" -> sg = "SLIGHT SELL" \/ sg = "SLIGHT BUY" \/ sg = "HOLD").
Proof.
  populated_fields.
  set (tc := tor_nodes c - tor_nodes p). clearbody tc.
  set (pc := if tor_nodes p >? 0 then _ else _). clearbody pc.
  set (conf := overall_confidence _). clearbody conf.
  destruct (decide_signal_verdict tc pc conf) as (Hss & Hsb & Hs & Hb & Hus & Hds & Hh).
  cbv zeta in *.
  set (sg := fst (fst (decide_signal tc pc conf))) in *. clearbody sg.
  split; [| split].
  - intros [Hi | Hi]; [apply Hss in Hi | apply Hsb in Hi]; tauto.
  - intros [Hi | Hi]; [apply (fun H => proj1 Hs (or_intror H)) in Hi
                      | apply (fun H => proj1 Hb (or_intror H)) in Hi]; tauto.
  - intros ->.
    assert (sg <> "STRONG SELL" /\ sg <> "SELL" /\ sg <> "STRONG BUY" /\ sg <> "BUY")
      as (N1 & N2 & N3 & N4).
    { repeat split; intros Hi.
      - apply Hss in Hi. destruct Hi as (_ & _ & Hi). discriminate.
      - apply (fun H => proj1 Hs (or_intror H)) in Hi.
        destruct Hi as (_ & _ & [Hi | Hi]); discriminate.
      - apply Hsb in Hi. destruct Hi as (_ & _ & Hi). discriminate.
      - apply (fun H => proj1 Hb (or_intror H)) in Hi.
        destruct Hi as (_ & _ & [Hi | Hi]); discriminate. }
    destruct (Z_lt_dec 10 tc) as [Hup | Hnup].
    { apply Hus in Hup. tauto. }
    destruct (Z_lt_dec tc (-10)) as [Hdn | Hndn].
    { apply Hds in Hdn. tauto. }
    right; right. apply Hh. lia.
Qed.

Lemma no_previous_tor_only_slight_witness :
  exists r : TorSignal.t,
    calculate_high_confidence_signal
      (window (Some scenario_cur) (Some (snapshot_of_payload "2024-01-01T00:00:00" empty_payload)))
      = Ok r /\
    TorSignal.percentage_change r = 0%Q /\
    (TorSignal.signal r = "SLIGHT SELL" \/ TorSignal.signal r = "SLIGHT BUY" \/
     TorSignal.signal r = "HOLD").
Proof.
  apply (no_previous_tor_only_slight scenario_cur
           (snapshot_of_payload "2024-01-01T00:00:00" empty_payload)).
  vm_compute. discriminate.
Defined.

(** X6. Whatever the Tor change, the confidence is capped by the state of
    the network: it is HIGH only if the network is large or the active ratio
    healthy, and it is above LOW only if the network is not small or the
    active ratio not poor. *)
Theorem confidence_capped_by_network (c p : snapshot) :
  exists r : TorSignal.t,
    calculate_high_confidence_signal (window (Some c) (Some p)) = Ok r /\
    (TorSignal.confidence r = "HIGH" ->
     10000 < total_nodes c \/ ((0.7 <= active_ratio c)%Q /\ (active_ratio c <= 0.9)%Q)) /\
    (TorSignal.confidence r <> "LOW" ->
     8000 < total_nodes c \/ ((0.6 <= active_ratio c)%Q /\ (active_ratio c <= 0.95)%Q)).
Proof.
  populated_fields.
  set (tc := tor_nodes c - tor_nodes p). clearbody tc.
  set (pc := if tor_nodes p >? 0 then _ else _). clearbody pc.
  destruct (tor_change_factor_cases tc) as [[A ->] | [[A ->] | [A ->]]];
  destruct (percentage_factor_cases pc) as [[B ->] | [(B & B' & ->) | [B ->]]];
  destruct (network_factor_cases (total_nodes c)) as [[C ->] | [[C ->] | [C ->]]];
  destruct (ratio_factor_cases (active_ratio c)) as [[D ->] | [(D & D' & ->) | [D ->]]];
    vm_compute overall_confidence; split; intros Hi;
    try discriminate; try (exfalso; apply Hi; reflexivity);
    try (left; lia); try (right; lra).
Qed.

(** ** The network signal *)

(** X7. With a slot missing, [calculate_network_signal] returns total_change
    0 and INSUFFICIENT_DATA, with current_total and previous_total taken
    from the snapshot that exists and 0 for the missing one. *)
Theorem network_insufficient_data_result (c p : option snapshot) :
  c = None \/ p = None ->
  calculate_network_signal (window c p) =
  Ok {| NetSignal.current_total := match c with Some d => total_nodes d | None => 0 end;
        NetSignal.previous_total := match p with Some d => total_nodes d | None => 0 end;
        NetSignal.total_change := 0;
        NetSignal.network_signal := "INSUFFICIENT_DATA" |}.
Proof.
  intros [-> | ->]; [destruct p | destruct c]; reflexivity.
Qed.

Lemma network_insufficient_data_result_witness :
  calculate_network_signal (window None (Some scenario_prev)) =
  Ok {| NetSignal.current_total := 0;
        NetSignal.previous_total := 9000;
        NetSignal.total_change := 0;
        NetSignal.network_signal := "INSUFFICIENT_DATA" |}.
Proof.
  exact (network_insufficient_data_result None (Some scenario_prev) (or_introl eq_refl)).
Defined.

Lemma classify_network_rank (change : Z) :
  network_rank (classify_network change) =
  Some (if change >? 100 then 3 else if change >? 50 then 2
        else if change >? 0 then 1 else 0)%nat.
Proof.
  unfold classify_network.
  destruct (change >? 100); [reflexivity |].
  destruct (change >? 50); [reflexivity |].
  destruct (change >? 0); reflexivity.
Qed.

(** X8. The network signal is monotone in total_change: of two windows with
    both snapshots, the one with the larger change of total_nodes never gets
    the weaker signal, for the order SHRINKING < STABLE < GROWING < STRONG
    GROWTH. *)
Theorem network_signal_monotone (c1 p1 c2 p2 : snapshot) :
  total_nodes c2 - total_nodes p2 <= total_nodes c1 - total_nodes p1 ->
  exists (r1 r2 : NetSignal.t) (n1 n2 : nat),
    calculate_network_signal (window (Some c1) (Some p1)) = Ok r1 /\
    calculate_network_signal (window (Some c2) (Some p2)) = Ok r2 /\
    network_rank (NetSignal.network_signal r1) = Some n1 /\
    network_rank (NetSignal.network_signal r2) = Some n2 /\
    (n2 <= n1)%nat.
Proof.
  intros Hle.
  do 4 eexists.
  split; [reflexivity |]. split; [reflexivity |].
  cbn [NetSignal.network_signal].
  split; [apply classify_network_rank |]. split; [apply classify_network_rank |].
  set (a := total_nodes c1 - total_nodes p1) in *.
  set (b := total_nodes c2 - total_nodes p2) in *.
  clearbody a b.
  destruct (Z.gtb_spec a 100), (Z.gtb_spec b 100), (Z.gtb_spec a 50), (Z.gtb_spec b 50),
    (Z.gtb_spec a 0), (Z.gtb_spec b 0); lia.
Qed.

Lemma network_signal_monotone_witness :
  exists (r1 r2 : NetSignal.t) (n1 n2 : nat),
    calculate_network_signal (window (Some scenario_cur) (Some scenario_prev)) = Ok r1 /\
    calculate_network_signal (window (Some scenario_prev) (Some scenario_prev)) = Ok r2 /\
    network_rank (NetSignal.network_signal r1) = Some n1 /\
    network_rank (NetSignal.network_signal r2) = Some n2 /\
    (n2 <= n1)%nat.
Proof.
  apply (network_signal_monotone scenario_cur scenario_prev scenario_prev scenario_prev).
  vm_compute. discriminate.
Defined.

(** ** The fetch *)

Lemma count_nodes_step (items : list (string * node_info)) (active tor : Z) :
  fold_left
    (fun counts item =>
       let '(active_nodes, tor_nodes) := counts in
       let '(node_address, info) := item in
       (if is_active info then active_nodes + 1 else active_nodes,
        if is_tor node_address info then tor_nodes + 1 else tor_nodes))
    items (active, tor) =
  (active + fst (count_nodes items), tor + snd (count_nodes items)).
Proof.
  unfold count_nodes.
  revert active tor.
  induction items as [| [address info] items IH]; intros active tor.
  - cbn. f_equal; lia.
  - cbn [fold_left]. rewrite IH. rewrite (IH (if is_active info then _ else _)).
    cbn [fst snd]. destruct (is_active info), (is_tor address info); f_equal; lia.
Qed.

Lemma count_nodes_cons (address : string) (info : node_info)
      (items : list (string * node_info)) :
  count_nodes ((address, info) :: items) =
  ((if is_active info then 1 else 0) + fst (count_nodes items),
   (if is_tor address info then 1 else 0) + snd (count_nodes items)).
Proof.
  unfold count_nodes at 1. cbn [fold_left]. rewrite count_nodes_step.
  destruct (is_active info), (is_tor address info); reflexivity.
Qed.

Lemma count_nodes_bounds (items : list (string * node_info)) :
  0 <= fst (count_nodes items) <= Z.of_nat (length items) /\
  0 <= snd (count_nodes items) <= Z.of_nat (length items).
Proof.
  induction items as [| [address info] items IH].
  - cbn. lia.
  - rewrite count_nodes_cons. cbn [fst snd length].
    destruct (is_active info), (is_tor address info); lia.
Qed.

Lemma count_nodes_permutation (items items' : list (string * node_info)) :
  Permutation items items' -> count_nodes items = count_nodes items'.
Proof.
  induction 1 as [| [a i] l l' _ IH | [a i] [b j] l | l l' l'' _ IH1 _ IH2].
  - reflexivity.
  - rewrite !count_nodes_cons, IH. reflexivity.
  - rewrite !count_nodes_cons. cbn [fst snd]. f_equal; lia.
  - congruence.
Qed.

Lemma fetch_gives_fetched (e : env) (s : state) :
  exists s1 : state,
    fetch_node_data e s = (Ok (fetched e), s1) /\
    self s1 = self s /\ disk s1 = disk s /\ requests s1 = S (requests s) /\
    reports s1 =
      match http e with
      | RequestFails err => (reports s ++ [ErrorFetching err])%list
      | Response _ => reports s
      end.
Proof.
  destruct (fetch_node_data_spec e s) as (f & s1 & Hfetch & Hself & Hdisk & Hreq & Hout).
  exists s1. unfold fetched, snapshot_of_payload.
  destruct (http e) as [err | data].
  - destruct Hout as [-> Hrep]. auto.
  - destruct Hout as [Hrep ->]. auto.
Qed.

(** X9. [fetch_node_data] never raises and never touches the attributes or
    the file; it issues one request.  It returns None exactly when the
    request or the payload fails, and then shows exactly one error message;
    on a response it shows none. *)
Theorem fetch_never_raises (e : env) (s : state) :
  exists (result : option snapshot) (s1 : state),
    fetch_node_data e s = (Ok result, s1) /\
    self s1 = self s /\ disk s1 = disk s /\ requests s1 = S (requests s) /\
    (result = None <-> exists err, http e = RequestFails err) /\
    (forall err, http e = RequestFails err ->
       reports s1 = (reports s ++ [ErrorFetching err])%list) /\
    (forall data, http e = Response data -> reports s1 = reports s).
Proof.
  destruct (fetch_gives_fetched e s) as (s1 & Hfetch & Hself & Hdisk & Hreq & Hrep).
  exists (fetched e), s1. unfold fetched in *.
  destruct (http e) as [err | data]; repeat split; auto; try discriminate.
  - intros _. eauto.
  - intros ? [= <-]. exact Hrep.
  - intros [? [=]].
Qed.

(** X10. In every fetched snapshot active_nodes and tor_nodes lie between 0
    and the number of entries of the payload's nodes dict, and total_nodes
    is the payload's own field. *)
Theorem fetched_counts_bounded (e : env) (s : state) (data : payload) :
  http e = Response data ->
  exists (d : snapshot) (s1 : state),
    fetch_node_data e s = (Ok (Some d), s1) /\
    total_nodes d = p_total_nodes data /\
    0 <= active_nodes d <= Z.of_nat (length (p_nodes data)) /\
    0 <= tor_nodes d <= Z.of_nat (length (p_nodes data)).
Proof.
  intros Hhttp.
  destruct (fetch_gives_fetched e s) as (s1 & Hfetch & _).
  unfold fetched in Hfetch. rewrite Hhttp in Hfetch.
  do 2 eexists. split; [exact Hfetch |].
  cbn [snapshot_of_payload total_nodes active_nodes tor_nodes].
  split; [reflexivity |]. apply count_nodes_bounds.
Qed.

Lemma ratio_in_unit (a t : Z) :
  0 <= a <= t -> 0 < t -> (0 <= inject_Z a / inject_Z t)%Q /\ (inject_Z a / inject_Z t <= 1)%Q.
Proof.
  intros Ha Ht. destruct t as [| tp | tp]; try lia.
  unfold Qle, Qdiv, Qmult, Qinv, inject_Z; cbn. lia.
Qed.

(** X11. When the payload's total_nodes is at least the number of entries of
    its nodes dict, the fetched snapshot has 0 <= active_ratio <= 1 and
    0 <= tor_percentage <= 100. *)
Theorem fetched_ratios_bounded (e : env) (s : state) (data : payload) :
  http e = Response data ->
  Z.of_nat (length (p_nodes data)) <= p_total_nodes data ->
  exists (d : snapshot) (s1 : state),
    fetch_node_data e s = (Ok (Some d), s1) /\
    (0 <= active_ratio d)%Q /\ (active_ratio d <= 1)%Q /\
    (0 <= tor_percentage d)%Q /\ (tor_percentage d <= 100)%Q.
Proof.
  intros Hhttp Hlen.
  destruct (fetch_gives_fetched e s) as (s1 & Hfetch & _).
  unfold fetched in Hfetch. rewrite Hhttp in Hfetch.
  do 2 eexists. split; [exact Hfetch |].
  cbn [snapshot_of_payload active_ratio tor_percentage].
  destruct (count_nodes_bounds (p_nodes data)) as [Ha Ht].
  destruct (Z.gtb_spec (p_total_nodes data) 0) as [Hpos | Hle].
  - destruct (ratio_in_unit (fst (count_nodes (p_nodes data))) (p_total_nodes data))
      as [A1 A2]; [lia | lia |].
    destruct (ratio_in_unit (snd (count_nodes (p_nodes data))) (p_total_nodes data))
      as [T1 T2]; [lia | lia |].
    repeat split; try assumption; lra.
  - repeat split; discriminate.
Qed.

(** X12. The fetched snapshot does not depend on the order in which the
    nodes dict is iterated: two payloads with the same total_nodes whose
    entries are a permutation of each other give the same snapshot. *)
Theorem fetch_order_independent (e e' : env) (s : state) (data data' : payload) :
  http e = Response data ->
  http e' = Response data' ->
  now e = now e' ->
  p_total_nodes data = p_total_nodes data' ->
  Permutation (p_nodes data) (p_nodes data') ->
  exists d : snapshot,
    fst (fetch_node_data e s) = Ok (Some d) /\
    fst (fetch_node_data e' s) = Ok (Some d).
Proof.
  intros Hhttp Hhttp' Hnow Htotal Hperm.
  destruct (fetch_gives_fetched e s) as (s1 & Hfetch & _).
  destruct (fetch_gives_fetched e' s) as (s1' & Hfetch' & _).
  rewrite Hfetch, Hfetch'. unfold fetched. rewrite Hhttp, Hhttp'.
  eexists. split; [reflexivity |]. cbn [fst].
  unfold snapshot_of_payload.
  rewrite Hnow, Htotal, (count_nodes_permutation _ _ Hperm). reflexivity.
Qed.

Lemma fetched_counts_bounded_witness :
  exists (d : snapshot) (s1 : state),
    fetch_node_data (sample_env (Response sample_payload) WriteCompletes) sample_state =
      (Ok (Some d), s1) /\
    total_nodes d = 4 /\
    0 <= active_nodes d <= 4 /\
    0 <= tor_nodes d <= 4.
Proof.
  exact (fetched_counts_bounded (sample_env (Response sample_payload) WriteCompletes)
           sample_state sample_payload eq_refl).
Defined.

Lemma fetched_ratios_bounded_witness :
  exists (d : snapshot) (s1 : state),
    fetch_node_data (sample_env (Response sample_payload) WriteCompletes) sample_state =
      (Ok (Some d), s1) /\
    (0 <= active_ratio d)%Q /\ (active_ratio d <= 1)%Q /\
    (0 <= tor_percentage d)%Q /\ (tor_percentage d <= 100)%Q.
Proof.
  apply (fetched_ratios_bounded (sample_env (Response sample_payload) WriteCompletes)
           sample_state sample_payload eq_refl).
  vm_compute. discriminate.
Defined.

Lemma fetch_order_independent_witness :
  exists d : snapshot,
    fst (fetch_node_data (sample_env (Response sample_payload) WriteCompletes) sample_state) =
      Ok (Some d) /\
    fst (fetch_node_data
           (sample_env (Response {| p_total_nodes := 4;
                                    p_nodes := rev (p_nodes sample_payload) |})
                       WriteCompletes) sample_state) = Ok (Some d).
Proof.
  apply (fetch_order_independent _ _ sample_state sample_payload
           {| p_total_nodes := 4; p_nodes := rev (p_nodes sample_payload) |});
    try reflexivity.
  apply Permutation_rev.
Defined.

(** ** Persistence *)

Lemma load_reads_persisted (e : env) (s : state) :
  exists s' : state,
    load_node_data e s = (Ok tt, s') /\
    disk s' = disk s /\ reports s' = reports s /\ requests s' = requests s /\
    self s' = if read_fails e then window None None else persisted (disk s).
Proof.
  unfold load_node_data, try_except, bind, get, read_json, persisted.
  destruct (disk s) as [| content] eqn:Hdisk.
  { eexists; split; [reflexivity |]. cbn. destruct (read_fails e); auto. }
  destruct (read_fails e) eqn:Hread.
  { eexists; split; [reflexivity |]. cbn. auto. }
  destruct (json_load content) as [[members | v] |] eqn:Hload;
    (eexists; split; [reflexivity |]); cbn; auto.
Qed.

Lemma persisted_document (e : env) (a : analyzer) :
  persisted (Present (document e a)) = a.
Proof.
  unfold persisted. rewrite json_load_document.
  destruct a as [cur prev]. cbn [current_data previous_data].
  f_equal; simplify_map_eq; reflexivity.
Qed.

Lemma persisted_truncated (e : env) (a : analyzer) (n : nat) :
  (n < length (document e a))%nat ->
  persisted (Present (firstn n (document e a))) = window None None.
Proof.
  intros Hn. unfold persisted. rewrite (json_load_truncated e a n Hn). reflexivity.
Qed.

Lemma save_writes (e : env) (s : state) :
  exists s' : state,
    save_node_data e s = (Ok tt, s') /\
    self s' = self s /\ requests s' = requests s /\
    disk s' = written e (self s) (disk s).
Proof.
  destruct (save_node_data_spec e s) as (s' & Hsave & Hself & Hreq & Hout).
  exists s'. unfold written.
  destruct (write e); destruct Hout as [Hdisk _]; auto.
Qed.

(** X13. Save then load is a round trip: after a completed write, an
    analyzer with any attributes that loads the file from a readable disk
    holds exactly the attributes that were saved. *)
Theorem save_then_load_restores (e e' : env) (s : state) (a0 : analyzer) :
  write e = WriteCompletes ->
  read_fails e' = false ->
  exists s1 s2 : state,
    save_node_data e s = (Ok tt, s1) /\
    load_node_data e' (with_self a0 s1) = (Ok tt, s2) /\
    self s2 = self s.
Proof.
  intros Hwrite Hread.
  destruct (save_writes e s) as (s1 & Hsave & _ & _ & Hdisk).
  destruct (load_reads_persisted e' (with_self a0 s1)) as (s2 & Hload & _ & _ & _ & Hself).
  exists s1, s2. split; [exact Hsave |]. split; [exact Hload |].
  rewrite Hself, Hread. cbn [with_self disk]. rewrite Hdisk.
  unfold written. rewrite Hwrite. apply persisted_document.
Qed.

(** X14. A write that breaks off before the last chunk loses the window:
    the next load, from whatever attributes, ends with both attributes None,
    although [save_node_data] returned normally. *)
Theorem truncated_save_loses_window (e e' : env) (s : state) (a0 : analyzer) (n : nat) :
  write e = WriteFailsAfter n ->
  (n < length (document e (self s)))%nat ->
  exists s1 s2 : state,
    save_node_data e s = (Ok tt, s1) /\
    load_node_data e' (with_self a0 s1) = (Ok tt, s2) /\
    self s2 = window None None.
Proof.
  intros Hwrite Hn.
  destruct (save_writes e s) as (s1 & Hsave & _ & _ & Hdisk).
  destruct (load_reads_persisted e' (with_self a0 s1)) as (s2 & Hload & _ & _ & _ & Hself).
  exists s1, s2. split; [exact Hsave |]. split; [exact Hload |].
  rewrite Hself. destruct (read_fails e'); [reflexivity |].
  cbn [with_self disk]. rewrite Hdisk.
  unfold written. rewrite Hwrite. apply persisted_truncated, Hn.
Qed.

Lemma save_then_load_restores_witness :
  exists s1 s2 : state,
    save_node_data (sample_env (RequestFails RequestException) WriteCompletes) sample_state
      = (Ok tt, s1) /\
    load_node_data (sample_env (RequestFails RequestException) WriteCompletes)
                   (with_self (window None None) s1) = (Ok tt, s2) /\
    self s2 = window (Some scenario_cur) (Some scenario_prev).
Proof.
  exact (save_then_load_restores
           (sample_env (RequestFails RequestException) WriteCompletes)
           (sample_env (RequestFails RequestException) WriteCompletes)
           sample_state (window None None) eq_refl eq_refl).
Defined.

Lemma truncated_save_loses_window_witness :
  exists s1 s2 : state,
    save_node_data (sample_env (RequestFails RequestException) (WriteFailsAfter 5))
                   sample_state = (Ok tt, s1) /\
    load_node_data (sample_env (RequestFails RequestException) WriteCompletes)
                   (with_self (self sample_state) s1) = (Ok tt, s2) /\
    self s2 = window None None.
Proof.
  apply (truncated_save_loses_window
           (sample_env (RequestFails RequestException) (WriteFailsAfter 5))
           (sample_env (RequestFails RequestException) WriteCompletes)
           sample_state (self sample_state) 5 eq_refl).
  vm_compute. lia.
Defined.

(** ** Refresh cycles *)

Lemma update_node_data_full (e : env) (s : state) :
  exists s' : state,
    update_node_data e s =
      (Ok (match fetched e with Some _ => true | None => false end), s') /\
    requests s' = S (requests s) /\
    match fetched e with
    | None => self s' = self s /\ disk s' = disk s
    | Some d =>
        self s' = rotated d (self s) /\
        disk s' = written e (rotated d (self s)) (disk s)
    end.
Proof.
  destruct (fetch_gives_fetched e s) as (s1 & Hfetch & Hself & Hdisk & Hreq & _).
  unfold update_node_data, bind. rewrite Hfetch.
  destruct (fetched e) as [d |].
  - unfold get, set_previous_data, set_current_data, modify; cbn.
    match goal with |- context [save_node_data e ?st] =>
      destruct (save_writes e st) as (s' & Hsave & Hself' & Hreq' & Hdisk')
    end.
    exists s'. rewrite Hsave. cbn in Hself', Hreq', Hdisk'.
    rewrite Hself', Hreq', Hdisk', Hself, Hdisk. unfold rotated. auto.
  - exists s1. unfold ret. auto.
Qed.

Lemma refresh_full (e : env) (s : state) :
  exists s' : state,
    refresh e s = (Ok (match fetched e with Some _ => true | None => false end), s') /\
    requests s' = S (requests s) /\
    let loaded := if read_fails e then window None None else persisted (disk s) in
    match fetched e with
    | None => self s' = loaded /\ disk s' = disk s
    | Some d =>
        self s' = rotated d loaded /\ disk s' = written e (rotated d loaded) (disk s)
    end.
Proof.
  destruct (load_reads_persisted e s) as (s0 & Hload & Hdisk0 & _ & Hreq0 & Hself0).
  destruct (update_node_data_full e s0) as (s' & Hup & Hreq & Hout).
  exists s'. unfold refresh, init, bind. rewrite Hload, Hup.
  rewrite Hreq0 in Hreq. rewrite Hself0, Hdisk0 in Hout. auto.
Qed.

Lemma consistent_persisted_written (e : env) (d : snapshot) (a : analyzer) (before : file) :
  consistent (persisted before) ->
  consistent (persisted (written e (rotated d a) before)).
Proof.
  intros Hbefore. unfold written.
  destruct (write e) as [| n |].
  - exact Hbefore.
  - destruct (Nat.lt_ge_cases n (length (document e (rotated d a)))) as [Hlt | Hge].
    + rewrite persisted_truncated by exact Hlt. intros H; discriminate.
    + rewrite firstn_all2 by exact Hge. rewrite persisted_document. intros _; reflexivity.
  - rewrite persisted_document. intros _; reflexivity.
Qed.

(** X15. With a disk that can be read and written, one refresh (a new
    analyzer, then [update_node_data]) rotates the stored window: after a
    successful fetch it returns True and the file holds the new snapshot as
    current_data and the formerly stored current_data as previous_data;
    after a failed fetch it returns False and the file is untouched. *)
Theorem refresh_rotates_file (e : env) (s : state) :
  healthy e ->
  exists s' : state,
    refresh e s = (Ok (match fetched e with Some _ => true | None => false end), s') /\
    match fetched e with
    | None => disk s' = disk s /\ self s' = persisted (disk s)
    | Some d =>
        persisted (disk s') = rotated d (persisted (disk s)) /\
        self s' = rotated d (persisted (disk s))
    end.
Proof.
  intros [Hread Hwrite].
  destruct (refresh_full e s) as (s' & Hrefresh & _ & Hout).
  exists s'. split; [exact Hrefresh |].
  rewrite Hread in Hout. cbv zeta in Hout.
  destruct (fetched e) as [d |]; destruct Hout as [Hself Hdisk]; split; auto.
  rewrite Hdisk. unfold written. rewrite Hwrite. apply persisted_document.
Qed.

(** X16. Whatever fails (request, read, write), a refresh keeps the
    invariant that previous_data is never held without current_data, both
    in the attributes of the analyzer and in what the file stores. *)
Theorem refresh_keeps_consistency (e : env) (s : state) :
  consistent (persisted (disk s)) ->
  exists (ok : bool) (s' : state),
    refresh e s = (Ok ok, s') /\
    consistent (self s') /\
    consistent (persisted (disk s')).
Proof.
  intros Hdisk.
  destruct (refresh_full e s) as (s' & Hrefresh & _ & Hout).
  do 2 eexists. split; [exact Hrefresh |].
  cbv zeta in Hout.
  assert (consistent (if read_fails e then window None None else persisted (disk s)))
    as Hloaded.
  { destruct (read_fails e); [intros H; discriminate | exact Hdisk]. }
  destruct (fetched e) as [d |]; destruct Hout as [-> ->].
  - split; [intros _; reflexivity |].
    apply consistent_persisted_written, Hdisk.
  - split; assumption.
Qed.

Lemma newest_two_app (l : list pyval) (a b c : pyval) :
  newest_two (l ++ [a; b; c]) = newest_two (l ++ [a; b]).
Proof. destruct l as [| x [| y l]]; reflexivity. Qed.

Lemma refreshes_full (es : list env) :
  Forall healthy es ->
  forall s : state,
  exists s' : state,
    refreshes es s =
      (Ok (map (fun e => match fetched e with Some _ => true | None => false end) es), s') /\
    requests s' = (requests s + length es)%nat /\
    persisted (disk s') =
      newest_two (rev (map PSnapshot (omap fetched es)) ++
                  [ current_data (persisted (disk s));
                    previous_data (persisted (disk s)) ]).
Proof.
  induction 1 as [| e es He _ IH]; intros s.
  - exists s. split; [reflexivity |]. split; [cbn; lia |].
    cbn. destruct (persisted (disk s)); reflexivity.
  - cbn [refreshes]. unfold bind at 1.
    destruct (refresh_full e s) as (s1 & Hrefresh & Hreq1 & Hout).
    destruct He as [Hread Hwrite]. rewrite Hread in Hout. cbv zeta in Hout.
    rewrite Hrefresh.
    destruct (IH s1) as (s' & Hrest & Hreq & Hpers).
    exists s'. unfold bind at 1. rewrite Hrest. unfold ret.
    split; [reflexivity |]. split; [cbn [length]; lia |].
    rewrite Hpers. cbn [omap list_omap].
    destruct (fetched e) as [d |]; destruct Hout as [_ Hdisk].
    + rewrite Hdisk. unfold written. rewrite Hwrite, persisted_document.
      cbn [map rev rotated current_data previous_data].
      rewrite <- app_assoc. cbn [app]. symmetry. apply newest_two_app.
    + rewrite Hdisk. reflexivity.
Qed.

(** X17. Over any number of refreshes with a disk that can be read and
    written, the file ends up holding the two most recent successfully
    fetched snapshots, newest as current_data, the stored window of the
    start filling in when fewer than two fetches succeeded; each refresh
    returns whether its fetch succeeded and issues one request. *)
Theorem refreshes_keep_last_two (es : list env) (s : state) :
  Forall healthy es ->
  exists s' : state,
    refreshes es s =
      (Ok (map (fun e => match fetched e with Some _ => true | None => false end) es), s') /\
    requests s' = (requests s + length es)%nat /\
    persisted (disk s') =
      newest_two (rev (map PSnapshot (omap fetched es)) ++
                  [ current_data (persisted (disk s));
                    previous_data (persisted (disk s)) ]).
Proof. intros Hes. apply refreshes_full, Hes. Qed.

Lemma refresh_rotates_file_witness :
  exists s' : state,
    refresh (sample_env (Response sample_payload) WriteCompletes) sample_state =
      (Ok true, s') /\
    persisted (disk s') =
      rotated (snapshot_of_payload "2024-01-01T00:20:00" sample_payload)
              (persisted (disk sample_state)) /\
    self s' =
      rotated (snapshot_of_payload "2024-01-01T00:20:00" sample_payload)
              (persisted (disk sample_state)).
Proof.
  exact (refresh_rotates_file (sample_env (Response sample_payload) WriteCompletes)
           sample_state (conj eq_refl eq_refl)).
Defined.

Lemma refresh_keeps_consistency_witness :
  exists (ok : bool) (s' : state),
    refresh (sample_env (Response sample_payload) (WriteFailsAfter 5)) sample_state =
      (Ok ok, s') /\
    consistent (self s') /\
    consistent (persisted (disk s')).
Proof.
  apply (refresh_keeps_consistency
           (sample_env (Response sample_payload) (WriteFailsAfter 5)) sample_state).
  unfold consistent. vm_compute. reflexivity.
Defined.

Lemma refreshes_keep_last_two_witness :
  exists s' : state,
    refreshes sample_session fresh_state = (Ok [true; false; true], s') /\
    requests s' = 3%nat /\
    persisted (disk s') =
      window (Some (snapshot_of_payload "2024-01-01T00:20:00" empty_payload))
             (Some (snapshot_of_payload "2024-01-01T00:20:00" sample_payload)).
Proof.
  apply (refreshes_keep_last_two sample_session fresh_state).
  repeat constructor.
Defined.

(** ** The dashboard *)

Lemma signal_analysis_populated (c p : snapshot) :
  exists (r : TorSignal.t) (colour emoji : string) (factors : list string)
         (comparison : list element),
    calculate_high_confidence_signal (window (Some c) (Some p)) = Ok r /\
    TorSignal.confidence_factors r = Some factors /\
    length factors = 4%nat /\ length comparison = 8%nat /\
    signal_analysis (window (Some c) (Some p)) =
    Shown (ConfidenceHeader colour emoji (TorSignal.confidence r)
             :: comparison ++
                (map factor_line factors ++
                 [ Metric "🎯 TRADING SIGNAL" (Plain (TorSignal.signal r)) None;
                   Metric "📡 MARKET BIAS" (Plain (TorSignal.bias r)) None;
                   ReasoningBox (TorSignal.reasoning r) ]))%list.
Proof.
  unfold signal_analysis.
  rewrite calculate_populated. cbn [call shown_bind].
  set (r := populated_result c p _).
  cbn [window slot calculate_network_signal truthy current_data previous_data negb orb
       getitem py_bind call shown_bind].
  destruct (confidence_style (TorSignal.confidence r)) as [colour emoji].
  unfold node_comparison, signal_results.
  cbn [window slot truthy current_data previous_data].
  subst r.
  cbn [populated_result TorSignal.active_ratio TorSignal.total_nodes
       TorSignal.confidence_factors item shown_bind].
  do 5 eexists.
  split; [reflexivity |]. split; [reflexivity |].
  split; [reflexivity |]. split; [| reflexivity]. reflexivity.
Qed.

(** X18. The signal analysis of [main] shows its elements when both
    snapshots are present (header, eight metrics, four factor lines, signal,
    bias, reasoning) and when both are missing (header and two notices).
    With a current snapshot but no previous one it raises KeyError on
    'confidence_factors'; with a previous but no current one it raises
    KeyError on 'active_ratio'. *)
Theorem signal_analysis_outcomes (c p : option snapshot) :
  match c, p with
  | Some _, Some _ =>
      exists elements : list element,
        signal_analysis (window c p) = Shown elements /\ length elements = 16%nat
  | Some _, None =>
      signal_analysis (window c p) = Crash (KeyError "confidence_factors")
  | None, Some _ =>
      signal_analysis (window c p) = Crash (KeyError "active_ratio")
  | None, None =>
      signal_analysis (window c p) =
      Shown [ ConfidenceHeader "#ff4444" "🔴" "LOW";
              Info "🔄 Update node data to see comparison (current → previous)";
              Info "🔄 Update node data to see signals" ]
  end.
Proof.
  destruct c as [c |], p as [p |]; try reflexivity.
  destruct (signal_analysis_populated c p)
    as (r & colour & emoji & factors & comparison & _ & _ & Hf & Hc & ->).
  eexists. split; [reflexivity |].
  cbn [length]. rewrite !length_app, length_map, Hf, Hc. reflexivity.
Qed.

(** X19. The first successful update crashes the dashboard: starting with
    no stored window and a disk that can be read and written, a refresh
    whose fetch succeeds returns True, and the signal analysis raises
    KeyError on 'confidence_factors' on the window the analyzer then holds,
    which is also the window the next run loads from the file. *)
Theorem first_refresh_crashes_dashboard (e : env) (s : state) (d : snapshot) :
  persisted (disk s) = window None None ->
  healthy e ->
  fetched e = Some d ->
  exists s' : state,
    refresh e s = (Ok true, s') /\
    signal_analysis (self s') = Crash (KeyError "confidence_factors") /\
    signal_analysis (persisted (disk s')) = Crash (KeyError "confidence_factors").
Proof.
  intros Hempty [Hread Hwrite] Hfetched.
  destruct (refresh_full e s) as (s' & Hrefresh & _ & Hout).
  rewrite Hfetched in Hrefresh, Hout. rewrite Hread, Hempty in Hout.
  cbv zeta in Hout. destruct Hout as [Hself Hdisk].
  exists s'. split; [exact Hrefresh |].
  rewrite Hdisk. unfold written. rewrite Hwrite, persisted_document, Hself.
  split; reflexivity.
Qed.

Lemma first_refresh_crashes_dashboard_witness :
  exists s' : state,
    refresh (sample_env (Response sample_payload) WriteCompletes) fresh_state =
      (Ok true, s') /\
    signal_analysis (self s') = Crash (KeyError "confidence_factors") /\
    signal_analysis (persisted (disk s')) = Crash (KeyError "confidence_factors").
Proof.
  exact (first_refresh_crashes_dashboard
           (sample_env (Response sample_payload) WriteCompletes) fresh_state
           (snapshot_of_payload "2024-01-01T00:20:00" sample_payload)
           eq_refl (conj eq_refl eq_refl) eq_refl).
Defined.

(** X20. For a window with both snapshots the ticks of the dashboard agree
    with the confidence: the factor lines shown in green are exactly the
    factors counted as high and those in yellow the factors counted as
    medium, so the confidence is HIGH exactly when at least three lines are
    green and LOW exactly when fewer than three are green or yellow. *)
Theorem factor_colours_match_confidence (c p : snapshot) :
  exists (r : TorSignal.t) (factors : list string),
    calculate_high_confidence_signal (window (Some c) (Some p)) = Ok r /\
    TorSignal.confidence_factors r = Some factors /\
    lines_in_colour "#00ff00" factors = high_confidence_count factors /\
    lines_in_colour "#ffff00" factors = medium_confidence_count factors /\
    (TorSignal.confidence r = "HIGH" <-> (3 <= lines_in_colour "#00ff00" factors)%nat) /\
    (TorSignal.confidence r = "LOW" <->
     (lines_in_colour "#00ff00" factors + lines_in_colour "#ffff00" factors < 3)%nat).
Proof.
  eexists. eexists. split; [apply calculate_populated |].
  cbn [populated_result TorSignal.confidence TorSignal.confidence_factors].
  split; [reflexivity |].
  set (tc := tor_nodes c - tor_nodes p). clearbody tc.
  set (pc := if tor_nodes p >? 0 then _ else _). clearbody pc.
  pose proof (tor_change_factor_in tc) as H1.
  pose proof (percentage_factor_in pc) as H2.
  pose proof (network_factor_in (total_nodes c)) as H3.
  pose proof (ratio_factor_in (active_ratio c)) as H4.
  cbn [In] in H1, H2, H3, H4.
  destruct H1 as [<- | [<- | [<- | []]]];
  destruct H2 as [<- | [<- | [<- | []]]];
  destruct H3 as [<- | [<- | [<- | []]]];
  destruct H4 as [<- | [<- | [<- | []]]];
  vm_compute;
  repeat split; intros; try discriminate; try lia; try reflexivity.
Qed.

(** X21. For a window with both snapshots the network size shown beside
    the totals is the size of the third confidence factor: that factor is
    the shown label followed by _NETWORK. *)
Theorem network_size_label_matches_factor (c p : snapshot) :
  exists (r : TorSignal.t) (f1 f2 f3 f4 : string) (total : Z),
    calculate_high_confidence_signal (window (Some c) (Some p)) = Ok r /\
    TorSignal.confidence_factors r = Some [f1; f2; f3; f4] /\
    TorSignal.total_nodes r = Some total /\
    f3 = network_size_label total ++ "_NETWORK".
Proof.
  do 6 eexists. split; [apply calculate_populated |].
  cbn [populated_result TorSignal.confidence_factors TorSignal.total_nodes].
  split; [reflexivity |]. split; [reflexivity |].
  unfold network_factor, network_size_label.
  destruct (total_nodes c >? 10000); [reflexivity |].
  destruct (total_nodes c >? 8000); reflexivity.
Qed.

(** X22. The main signal display and the coin cards style a signal alike:
    for every signal and confidence they use the same CSS class and the same
    emoji. *)
Theorem banner_and_cards_agree (signal confidence : string) :
  fst (fst (signal_style signal confidence)) =
    fst (fst (coin_signal_style signal confidence)) /\
  snd (fst (signal_style signal confidence)) =
    snd (coin_signal_style signal confidence).
Proof.
  unfold signal_style, coin_signal_style.
  destruct (contains "SELL" signal); [| destruct (contains "BUY" signal)];
    try (destruct (String.eqb confidence "HIGH");
         [| destruct (String.eqb confidence "MEDIUM")]);
    split; reflexivity.
Qed.

Lemma overall_confidence_values (factors : list string) :
  In (overall_confidence factors) ["HIGH"; "MEDIUM"; "LOW"].
Proof.
  unfold overall_confidence.
  destruct (3 <=? _)%nat; [cbn; auto |].
  destruct (3 <=? _)%nat; cbn; auto.
Qed.

Ltac settle_style :=
  repeat match goal with |- _ /\ _ => split end;
  split; intros;
  repeat match goal with
         | H : _ /\ _ |- _ => destruct H
         | H : _ \/ _ |- _ => destruct H
         end;
  try discriminate; try congruence; try lia;
  try (split; [lia | discriminate]);
  try (left; lia); try (right; reflexivity).

Lemma signal_style_of_direction (sg conf : string) (tc : Z) :
  In conf ["HIGH"; "MEDIUM"; "LOW"] ->
  (sg = "STRONG SELL" \/ sg = "SELL" \/ sg = "SLIGHT SELL" <-> 10 < tc) ->
  (sg = "STRONG BUY" \/ sg = "BUY" \/ sg = "SLIGHT BUY" <-> tc < -10) ->
  (sg = "HOLD" <-> -10 <= tc <= 10) ->
  let class := fst (fst (signal_style sg conf)) in
  let text := snd (signal_style sg conf) in
  (class = "signal-sell" <-> 10 < tc /\ conf <> "LOW") /\
  (class = "signal-buy" <-> tc < -10 /\ conf <> "LOW") /\
  (class = "signal-neutral" <-> -10 <= tc <= 10 \/ conf = "LOW") /\
  (text = "NEUTRAL" <-> -10 <= tc <= 10).
Proof.
  intros Hconf Hsell Hbuy Hhold. cbn [In] in Hconf.
  destruct (Z_lt_dec 10 tc) as [Hup | Hnup].
  { apply Hsell in Hup as Hsg. clear Hsell Hbuy Hhold.
    destruct Hsg as [-> | [-> | ->]];
      destruct Hconf as [<- | [<- | [<- | []]]];
      set (st := signal_style _ _); vm_compute in st; subst st; cbn [fst snd]; cbv zeta;
      settle_style. }
  destruct (Z_lt_dec tc (-10)) as [Hdn | Hndn].
  { apply Hbuy in Hdn as Hsg. clear Hsell Hbuy Hhold.
    destruct Hsg as [-> | [-> | ->]];
      destruct Hconf as [<- | [<- | [<- | []]]];
      set (st := signal_style _ _); vm_compute in st; subst st; cbn [fst snd]; cbv zeta;
      settle_style. }
  assert (sg = "HOLD") as -> by (apply Hhold; lia). clear Hsell Hbuy Hhold.
  destruct Hconf as [<- | [<- | [<- | []]]];
    set (st := signal_style _ _); vm_compute in st; subst st; cbn [fst snd]; cbv zeta;
    settle_style.
Qed.

(** X23. The main signal display appears only with both snapshots; it then
    carries the signal, bias, reasoning and changes of the analyzer, in the
    sell style exactly when tor_change > 10 and the confidence is not LOW,
    in the buy style exactly when tor_change < -10 and the confidence is not
    LOW, and in the neutral style otherwise; its confidence text is NEUTRAL
    exactly when -10 <= tor_change <= 10. *)
Theorem banner_style_follows_signal (c p : snapshot) :
  signal_banner (window (Some c) None) = Shown [] /\
  signal_banner (window None (Some p)) = Shown [] /\
  signal_banner (window None None) = Shown [] /\
  exists (r : TorSignal.t) (class emoji text : string),
    calculate_high_confidence_signal (window (Some c) (Some p)) = Ok r /\
    signal_banner (window (Some c) (Some p)) =
      Shown [ Banner class (TorSignal.signal r) emoji text (TorSignal.bias r)
                     (TorSignal.reasoning r) (TorSignal.tor_change r)
                     (TorSignal.percentage_change r) ] /\
    let tc := tor_nodes c - tor_nodes p in
    let conf := TorSignal.confidence r in
    (class = "signal-sell" <-> 10 < tc /\ conf <> "LOW") /\
    (class = "signal-buy" <-> tc < -10 /\ conf <> "LOW") /\
    (class = "signal-neutral" <-> -10 <= tc <= 10 \/ conf = "LOW") /\
    (text = "NEUTRAL" <-> -10 <= tc <= 10).
Proof.
  do 3 (split; [reflexivity |]).
  unfold signal_banner.
  cbn [window slot truthy current_data previous_data andb].
  change {| current_data := PSnapshot c; previous_data := PSnapshot p |}
    with (window (Some c) (Some p)).
  rewrite calculate_populated. cbn [call shown_bind].
  set (tc := tor_nodes c - tor_nodes p).
  set (pc := if tor_nodes p >? 0 then _ else _).
  cbn [populated_result TorSignal.tor_change TorSignal.percentage_change
       TorSignal.confidence TorSignal.signal TorSignal.bias TorSignal.reasoning].
  fold tc.
  set (conf := overall_confidence _).
  pose proof (overall_confidence_values
                [ tor_change_factor tc; percentage_factor pc;
                  network_factor (total_nodes c); ratio_factor (active_ratio c) ]) as Hconf.
  fold conf in Hconf.
  destruct (decide_signal_verdict tc pc conf) as (_ & _ & _ & _ & Hsell & Hbuy & Hhold).
  cbv zeta in Hsell, Hbuy, Hhold.
  pose proof (signal_style_of_direction _ conf tc Hconf Hsell Hbuy Hhold) as Hstyle.
  cbv zeta in Hstyle.
  destruct (signal_style _ conf) as [[class emoji] text].
  exists (populated_result c p pc), class, emoji, text.
  split; [reflexivity |]. split; [reflexivity |].
  cbn [populated_result TorSignal.confidence]. exact Hstyle.
Qed.

(** X24. When the data file cannot be opened for writing, a refresh whose
    fetch succeeds still returns True and the analyzer of that run holds the
    rotated window, but the file is unchanged: one error message is shown
    and the next run loads the old window. *)
Theorem failed_open_hides_update (e : env) (s : state) (d : snapshot) :
  read_fails e = false ->
  write e = OpenFails ->
  fetched e = Some d ->
  exists s' : state,
    refresh e s = (Ok true, s') /\
    self s' = rotated d (persisted (disk s)) /\
    disk s' = disk s /\
    reports s' = (reports s ++ [ErrorSaving OSError])%list.
Proof.
  intros Hread Hwrite Hfetched.
  destruct (load_reads_persisted e s) as (s0 & Hload & Hdisk0 & Hrep0 & _ & Hself0).
  destruct (fetch_gives_fetched e s0) as (s1 & Hfetch & Hself1 & Hdisk1 & _ & Hrep1).
  rewrite Hfetched in Hfetch.
  unfold fetched in Hfetched. destruct (http e) as [err | data]; [discriminate |].
  unfold refresh, init, bind at 1. rewrite Hload.
  unfold update_node_data, bind. rewrite Hfetch.
  unfold get, set_previous_data, set_current_data, modify; cbn.
  match goal with |- context [save_node_data e ?st] =>
    destruct (save_node_data_spec e st) as (s' & Hsave & Hself' & _ & Hout)
  end.
  rewrite Hwrite in Hout. destruct Hout as [Hdisk' Hrep'].
  exists s'. rewrite Hsave. cbn in Hself', Hdisk', Hrep'.
  rewrite Hself', Hdisk', Hrep', Hself1, Hdisk1, Hrep1, Hself0, Hdisk0, Hrep0, Hread.
  unfold rotated. auto.
Qed.

Lemma failed_open_hides_update_witness :
  exists s' : state,
    refresh (sample_env (Response sample_payload) OpenFails) sample_state = (Ok true, s') /\
    self s' = rotated (snapshot_of_payload "2024-01-01T00:20:00" sample_payload)
                      (persisted (disk sample_state)) /\
    disk s' = disk sample_state /\
    reports s' = [ErrorSaving OSError].
Proof.
  exact (failed_open_hides_update (sample_env (Response sample_payload) OpenFails)
           sample_state (snapshot_of_payload "2024-01-01T00:20:00" sample_payload)
           eq_refl eq_refl eq_refl).
Defined.

(** ** Buy and sell are mirror images *)

Lemma Qgtb_mirror (x y b nb : Q) :
  (y == - x)%Q -> (nb == - b)%Q -> Qgtb y b = Qltb x nb.
Proof.
  intros Hy Hb. apply eq_true_iff_eq. rewrite Qgtb_true, Qltb_true, Hy, Hb.
  split; intros; lra.
Qed.

Lemma Qltb_mirror (x y b nb : Q) :
  (y == - x)%Q -> (nb == - b)%Q -> Qltb y nb = Qgtb x b.
Proof.
  intros Hy Hb. apply eq_true_iff_eq. rewrite Qgtb_true, Qltb_true, Hy, Hb.
  split; intros; lra.
Qed.

Lemma decide_signal_mirror (tc : Z) (pc pc' : Q) (conf : string) :
  (pc' == - pc)%Q ->
  fst (fst (decide_signal (- tc) pc' conf)) =
  mirror_signal (fst (fst (decide_signal tc pc conf))).
Proof.
  intros Hpc. unfold decide_signal.
  rewrite (Qgtb_mirror pc pc' 5 (-5) Hpc), (Qgtb_mirror pc pc' 2.5 (-2.5) Hpc)
    by reflexivity.
  rewrite (Qltb_mirror pc pc' 5 (-5) Hpc), (Qltb_mirror pc pc' 2.5 (-2.5) Hpc)
    by reflexivity.
  destruct (Z.gtb_spec (- tc) 50), (Z.ltb_spec (- tc) (-50)),
           (Z.gtb_spec (- tc) 25), (Z.ltb_spec (- tc) (-25)),
           (Z.gtb_spec (- tc) 10), (Z.ltb_spec (- tc) (-10)); try lia;
  destruct (Z.gtb_spec tc 50), (Z.ltb_spec tc (-50)),
           (Z.gtb_spec tc 25), (Z.ltb_spec tc (-25)),
           (Z.gtb_spec tc 10), (Z.ltb_spec tc (-10)); try lia;
  destruct (Qgtb pc 5), (Qltb pc (-5)), (Qgtb pc 2.5), (Qltb pc (-2.5)),
           (String.eqb conf "HIGH"), (medium_or_high conf); reflexivity.
Qed.

Lemma percentage_factor_abs (a b : Q) :
  (Qabs a == Qabs b)%Q -> percentage_factor a = percentage_factor b.
Proof.
  intros Heq.
  destruct (percentage_factor_cases a) as [[A ->] | [(A & A' & ->) | [A ->]]];
  destruct (percentage_factor_cases b) as [[B ->] | [(B & B' & ->) | [B ->]]];
    try reflexivity; exfalso; lra.
Qed.

Lemma percentage_opp (tc prev : Z) :
  ((if prev >? 0 then inject_Z (- tc) / inject_Z prev * 100 else 0) ==
   - (if prev >? 0 then inject_Z tc / inject_Z prev * 100 else 0))%Q.
Proof.
  destruct (Z.gtb_spec prev 0) as [Hpos | Hle]; [| reflexivity].
  destruct prev as [| pp | pp]; try lia.
  unfold Qeq, Qopp, Qdiv, Qmult, Qinv, inject_Z; cbn. lia.
Qed.

(** X25. Buy and sell are treated symmetrically: two windows with the same
    previous Tor count, the same current total_nodes and active_ratio and
    opposite tor_change get the same confidence and mirrored signals (STRONG
    SELL for STRONG BUY, SELL for BUY, SLIGHT SELL for SLIGHT BUY, HOLD for
    HOLD). *)
Theorem opposite_change_mirrors_signal (c1 p1 c2 p2 : snapshot) :
  tor_nodes p1 = tor_nodes p2 ->
  total_nodes c1 = total_nodes c2 ->
  (active_ratio c1 == active_ratio c2)%Q ->
  tor_nodes c2 - tor_nodes p2 = - (tor_nodes c1 - tor_nodes p1) ->
  exists r1 r2 : TorSignal.t,
    calculate_high_confidence_signal (window (Some c1) (Some p1)) = Ok r1 /\
    calculate_high_confidence_signal (window (Some c2) (Some p2)) = Ok r2 /\
    TorSignal.confidence r2 = TorSignal.confidence r1 /\
    TorSignal.signal r2 = mirror_signal (TorSignal.signal r1).
Proof.
  intros Hprev Htotal Hratio Hopp.
  do 2 eexists.
  split; [apply calculate_populated |]. split; [apply calculate_populated |].
  cbn [populated_result TorSignal.confidence TorSignal.signal].
  rewrite Hopp, <- Hprev, <- Htotal, <- (ratio_factor_proper _ _ Hratio).
  set (tc := tor_nodes c1 - tor_nodes p1).
  pose proof (percentage_opp tc (tor_nodes p1)) as Hpc.
  set (pc := if tor_nodes p1 >? 0 then (inject_Z tc / _ * 100)%Q else 0%Q) in *.
  set (pc' := if tor_nodes p1 >? 0 then (inject_Z (- tc) / _ * 100)%Q else 0%Q) in *.
  clearbody pc pc' tc.
  assert (tor_change_factor (- tc) = tor_change_factor tc) as ->.
  { unfold tor_change_factor. rewrite Z.abs_opp. reflexivity. }
  assert (percentage_factor pc' = percentage_factor pc) as ->.
  { apply percentage_factor_abs. rewrite Hpc. apply Qabs_opp. }
  split; [reflexivity |].
  apply decide_signal_mirror, Hpc.
Qed.

Lemma opposite_change_mirrors_signal_witness :
  exists r1 r2 : TorSignal.t,
    calculate_high_confidence_signal (window (Some scenario_cur) (Some scenario_prev)) = Ok r1 /\
    calculate_high_confidence_signal
      (window (Some scenario_cur_down) (Some scenario_prev)) = Ok r2 /\
    TorSignal.confidence r2 = TorSignal.confidence r1 /\
    TorSignal.signal r2 = mirror_signal (TorSignal.signal r1).
Proof.
  apply (opposite_change_mirrors_signal
           scenario_cur scenario_prev scenario_cur_down scenario_prev);
    reflexivity.
Defined.

(** The readable form of a factor, as on the dashboard. *)
Example readable_factor_sample :
  factor_line "LARGE_TOR_CHANGE" = FactorLine "#00ff00" "✅" "Large Tor Change" /\
  factor_line "MODERATE_ACTIVE_RATIO" = FactorLine "#ffff00" "⚠️" "Moderate Active Ratio" /\
  factor_line "SMALL_NETWORK" = FactorLine "#ff4444" "❌" "Small Network".
Proof. repeat split; reflexivity. Qed.

(** The mirrored scenario A is a STRONG BUY. *)
Example scenario_A_mirrored :
  exists r : TorSignal.t,
    calculate_high_confidence_signal
      (window (Some scenario_cur_down) (Some scenario_prev)) = Ok r /\
    TorSignal.signal r = "STRONG BUY" /\ TorSignal.confidence r = "HIGH".
Proof. eexists. repeat split; reflexivity. Qed.

(** X26. From the second successful refresh on the dashboard works: after
    two refreshes with a disk that can be read and written whose fetches
    gave d1 and then d2, the analyzer holds d2 as current and d1 as
    previous, the signal is computed on tor_change = d2.tor_nodes -
    d1.tor_nodes, and the signal analysis shows its sixteen elements. *)
Theorem two_refreshes_show_analysis (e1 e2 : env) (s : state) (d1 d2 : snapshot) :
  healthy e1 -> healthy e2 ->
  fetched e1 = Some d1 -> fetched e2 = Some d2 ->
  exists (s1 s2 : state) (r : TorSignal.t) (elements : list element),
    refresh e1 s = (Ok true, s1) /\
    refresh e2 s1 = (Ok true, s2) /\
    self s2 = window (Some d2) (Some d1) /\
    calculate_high_confidence_signal (self s2) = Ok r /\
    TorSignal.tor_change r = tor_nodes d2 - tor_nodes d1 /\
    signal_analysis (self s2) = Shown elements /\
    length elements = 16%nat.
Proof.
  intros [Hread1 Hwrite1] [Hread2 Hwrite2] Hf1 Hf2.
  destruct (refresh_full e1 s) as (s1 & Hr1 & _ & Hout1).
  destruct (refresh_full e2 s1) as (s2 & Hr2 & _ & Hout2).
  rewrite Hf1 in Hr1, Hout1. rewrite Hf2 in Hr2, Hout2.
  rewrite Hread1 in Hout1. rewrite Hread2 in Hout2. cbv zeta in Hout1, Hout2.
  destruct Hout1 as [_ Hdisk1]. destruct Hout2 as [Hself2 _].
  rewrite Hdisk1 in Hself2. unfold written in Hself2.
  rewrite Hwrite1, persisted_document in Hself2.
  assert (self s2 = window (Some d2) (Some d1)) as Hwin by exact Hself2.
  destruct (signal_analysis_populated d2 d1)
    as (r & colour & emoji & factors & comparison & Hcalc & _ & Hf & Hc & Hshow).
  exists s1, s2, r. eexists.
  split; [exact Hr1 |]. split; [exact Hr2 |]. split; [exact Hwin |].
  rewrite Hwin. split; [exact Hcalc |].
  split.
  { rewrite calculate_populated in Hcalc. injection Hcalc as <-. reflexivity. }
  split; [exact Hshow |].
  cbn [length]. rewrite !length_app, length_map, Hf, Hc. reflexivity.
Qed.

Lemma two_refreshes_show_analysis_witness :
  exists (s1 s2 : state) (r : TorSignal.t) (elements : list element),
    refresh (sample_env (Response sample_payload) WriteCompletes) fresh_state = (Ok true, s1) /\
    refresh (sample_env (Response empty_payload) WriteCompletes) s1 = (Ok true, s2) /\
    self s2 = window (Some (snapshot_of_payload "2024-01-01T00:20:00" empty_payload))
                     (Some (snapshot_of_payload "2024-01-01T00:20:00" sample_payload)) /\
    calculate_high_confidence_signal (self s2) = Ok r /\
    TorSignal.tor_change r = 0 - 2 /\
    signal_analysis (self s2) = Shown elements /\
    length elements = 16%nat.
Proof.
  exact (two_refreshes_show_analysis
           (sample_env (Response sample_payload) WriteCompletes)
           (sample_env (Response empty_payload) WriteCompletes)
           fresh_state
           (snapshot_of_payload "2024-01-01T00:20:00" sample_payload)
           (snapshot_of_payload "2024-01-01T00:20:00" empty_payload)
           (conj eq_refl eq_refl) (conj eq_refl eq_refl) eq_refl eq_refl).
Defined.
